(** * Configuration settings of huggingface-env

    A shallow embedding of [src/project/config/settings.py]: the three
    sub-configuration dataclasses, the top-level [Settings] dataclass with
    its [__post_init__], and the module-level singleton accessed through
    [get_settings] and [load_settings_from_env].

    The process environment table, the file system and the object heap are
    explicit components of the state that the code threads through. *)

From Stdlib Require Import ZArith QArith Ascii String List Lia Bool.
From stdpp Require Import base option list gmap strings pretty.

Open Scope string_scope.
Open Scope Z_scope.

(** ** Text *)

Module Text.

(** [str.lower()] restricted to what the comparison with ["true"] can
    observe: letters A-Z are mapped to a-z, every other byte is kept.  The
    only non-ASCII characters Python lowers to ASCII letters give [k] and
    [i], neither of which occurs in ["true"]. *)
Definition lower_ascii (c : ascii) : ascii :=
  let n := nat_of_ascii c in
  if (Nat.leb 65 n && Nat.leb n 90)%bool then ascii_of_nat (n + 32) else c.

Fixpoint lower (s : string) : string :=
  match s with
  | EmptyString => EmptyString
  | String c r => String (lower_ascii c) (lower r)
  end.

Definition slash : ascii := "/"%char.
Definition nul : ascii := "000"%char.

Definition is_slash (c : ascii) : bool := Ascii.eqb c slash.

(** [s.split("/")] *)
Fixpoint split_slash (s : string) : list string :=
  match s with
  | EmptyString => [EmptyString]
  | String c r =>
      if is_slash c then EmptyString :: split_slash r
      else match split_slash r with
           | h :: t => String c h :: t
           | [] => [String c EmptyString]
           end
  end.

(** ["/".join(l)] *)
Fixpoint join_slash (l : list string) : string :=
  match l with
  | [] => EmptyString
  | [x] => x
  | x :: r => x ++ String slash (join_slash r)
  end.

Fixpoint has_char (a : ascii) (s : string) : bool :=
  match s with
  | EmptyString => false
  | String c r => (Ascii.eqb c a || has_char a r)%bool
  end.

(** [s.rstrip("/")] *)
Fixpoint rstrip_slash (s : string) : string :=
  match s with
  | EmptyString => EmptyString
  | String c r =>
      match rstrip_slash r with
      | EmptyString => if is_slash c then EmptyString else String c EmptyString
      | r' => String c r'
      end
  end.

Definition starts_with_tilde (s : string) : bool :=
  match s with
  | String c _ => Ascii.eqb c "~"%char
  | EmptyString => false
  end.

(** Python truthiness of a [str]. *)
Definition truthy (s : string) : bool :=
  match s with EmptyString => false | _ => true end.

(** Equality of texts up to the case of ASCII letters, as the
    specification words the reading of [DEBUG]. *)
Definition swap_case (c : ascii) : ascii :=
  let n := nat_of_ascii c in
  if (Nat.leb 65 n && Nat.leb n 90)%bool then ascii_of_nat (n + 32)
  else if (Nat.leb 97 n && Nat.leb n 122)%bool then ascii_of_nat (n - 32)
  else c.

Definition same_letter (x y : ascii) : bool :=
  (Ascii.eqb x y || Ascii.eqb x (swap_case y))%bool.

Fixpoint ci_equal (a b : string) : bool :=
  match a, b with
  | EmptyString, EmptyString => true
  | String x a', String y b' => (same_letter x y && ci_equal a' b')%bool
  | _, _ => false
  end.

End Text.

(** ** pathlib.PurePosixPath *)

Module Pathlib.
Import Text.

(** The root of a POSIX path is [""], ["/"] or ["//"]; it is kept as the
    number of leading slashes (0, 1 or 2). *)
Record Path : Type := mkPath { root : nat; parts : list string }.

(** [posixpath.splitroot]: exactly two leading slashes are kept, three or
    more collapse to one. *)
Definition splitroot (s : string) : nat * string :=
  match s with
  | String a r1 =>
      if is_slash a then
        match r1 with
        | String b r2 =>
            if is_slash b then
              match r2 with
              | String c _ => if is_slash c then (1%nat, r1) else (2%nat, r2)
              | EmptyString => (2%nat, r2)
              end
            else (1%nat, r1)
        | EmptyString => (1%nat, r1)
        end
      else (0%nat, s)
  | EmptyString => (0%nat, s)
  end.

Definition keep_part (x : string) : bool :=
  (negb (String.eqb x "") && negb (String.eqb x "."))%bool.

(** [Path(s)]: components that are empty or ["."] are dropped. *)
Definition Path_of_str (s : string) : Path :=
  let '(r, rel) := splitroot s in
  mkPath r (List.filter keep_part (split_slash rel)).

Definition root_str (r : nat) : string :=
  match r with
  | O => ""
  | S O => "/"
  | _ => "//"
  end.

(** [str(p)] *)
Definition str (p : Path) : string :=
  match root p, parts p with
  | O, [] => "."
  | r, l => root_str r ++ join_slash l
  end.

(** [p / seg] *)
Definition truediv (p : Path) (seg : string) : Path :=
  let q := Path_of_str seg in
  match root q with
  | O => mkPath (root p) (parts p ++ parts q)
  | _ => q
  end.

(** A component as [Path] keeps it: not empty, not ["."], no slash. *)
Definition part_ok (x : string) : Prop :=
  keep_part x = true /\ has_char slash x = false.

Definition wf (p : Path) : Prop :=
  (root p <= 2)%nat /\ Forall part_ok (parts p).

End Pathlib.

Notation "p // s" := (Pathlib.truediv p s) (at level 40, left associativity).

(** ** Exceptions and the state-and-exception monad

    A computation takes a state and yields either a raised exception or a
    value, together with the state reached: effects performed before an
    exception is raised are kept. *)

Inductive Exn : Type :=
| ValueError
| RuntimeError
| OSError.

Definition M (St A : Type) : Type := St -> (Exn + A) * St.

Definition ret {St A} (a : A) : M St A := fun s => (inr a, s).

Definition raise {St A} (e : Exn) : M St A := fun s => (inl e, s).

Definition bind {St A B} (m : M St A) (k : A -> M St B) : M St B :=
  fun s =>
    match m s with
    | (inr a, s') => k a s'
    | (inl e, s') => (inl e, s')
    end.

Notation "'let*' x ':=' m 'in' k" := (bind m (fun x => k))
  (at level 10, x pattern, m at level 100, k at level 200).

Definition gets {St A} (f : St -> A) : M St A := fun s => (inr (f s), s).

Definition modify {St} (f : St -> St) : M St unit := fun s => (inr tt, f s).

(** ** The operating-system side of the process *)

Module Sys.
Import Text Pathlib.

Inductive Node : Type := Dir | File.

Inductive Event : Type :=
| EMkdir (p : Path)
| EPutenv (k v : string).

(** [environ] is [os.environ]; [nodes] maps an absolute component list to
    what is stored there (the root [[]] is always a directory); creating
    an entry inside a directory listed in [denied] is refused; [pw_dir]
    is the home directory of the password database; [events] records the
    calls made, oldest first. *)
Record OS : Type := mkOS {
  environ : gmap string string;
  nodes : gmap (list string) Node;
  denied : gset (list string);
  cwd : list string;
  pw_dir : string;
  events : list Event
}.

Definition set_environ (f : gmap string string -> gmap string string) (o : OS) : OS :=
  mkOS (f (environ o)) (nodes o) (denied o) (cwd o) (pw_dir o) (events o).

Definition set_nodes (n : gmap (list string) Node) (o : OS) : OS :=
  mkOS (environ o) n (denied o) (cwd o) (pw_dir o) (events o).

Definition log (e : Event) (o : OS) : OS :=
  mkOS (environ o) (nodes o) (denied o) (cwd o) (pw_dir o) (events o ++ [e])%list.

Definition node_at (n : gmap (list string) Node) (p : list string) : option Node :=
  match p with
  | [] => Some Dir
  | _ => n !! p
  end.

Definition is_dir_at (n : gmap (list string) Node) (p : list string) : bool :=
  match node_at n p with
  | Some Dir => true
  | _ => false
  end.

(** [os.getenv(k)] and [os.getenv(k, d)] *)
Definition getenv (k : string) : M OS (option string) :=
  gets (fun o => environ o !! k).

Definition getenv_default (k d : string) : M OS string :=
  gets (fun o => default d (environ o !! k)).

(** [os.environ[k] = v]: a value with an embedded NUL is rejected. *)
Definition putenv (k v : string) : M OS unit :=
  fun o =>
    let o1 := log (EPutenv k v) o in
    if has_char nul v then (inl ValueError, o1)
    else (inr tt, set_environ (insert k v) o1).

(** [os.path.expanduser("~")] followed by the check of [Path.home()]. *)
Definition expanduser_home (o : OS) : string :=
  let h := rstrip_slash (default (pw_dir o) (environ o !! "HOME")) in
  if truthy h then h else "/".

Definition Path_home : M OS Path :=
  fun o =>
    let h := expanduser_home o in
    if starts_with_tilde h then (inl RuntimeError, o)
    else (inr (Path_of_str h), o).

(** The directory a path is interpreted from. *)
Definition start_of (o : OS) (p : Path) : list string :=
  match root p with
  | O => cwd o
  | _ => []
  end.

(** Walk of the components of a path, creating what is missing.  The walk
    reaches the same store as the recursion of
    [Path.mkdir(parents=True, exist_ok=True)]: an existing directory is
    entered, a missing one is created in its parent, a file in the way is
    an error, [".."] goes to the parent. *)
Fixpoint mkdir_walk (den : gset (list string)) (cur : list string)
    (comps : list string) (n : gmap (list string) Node)
  : (Exn + unit) * gmap (list string) Node :=
  match comps with
  | [] => (inr tt, n)
  | c :: rest =>
      if String.eqb c ".." then
        if is_dir_at n (removelast cur) then mkdir_walk den (removelast cur) rest n
        else (inl OSError, n)
      else
        let nxt := (cur ++ [c])%list in
        match node_at n nxt with
        | Some Dir => mkdir_walk den nxt rest n
        | Some File => (inl OSError, n)
        | None =>
            if bool_decide (cur ∈ den) then (inl OSError, n)
            else mkdir_walk den nxt rest (<[nxt := Dir]> n)
        end
  end.

(** [p.mkdir(parents=True, exist_ok=True)] *)
Definition mkdir_parents (p : Path) : M OS unit :=
  fun o =>
    let o1 := log (EMkdir p) o in
    if existsb (has_char nul) (parts p) then (inl ValueError, o1)
    else if is_dir_at (nodes o) (start_of o p) then
      let '(r, n') := mkdir_walk (denied o) (start_of o p) (parts p) (nodes o) in
      (r, set_nodes n' o1)
    else (inl OSError, o1).

(** Where a path leads, when every directory on the way exists. *)
Fixpoint resolve (n : gmap (list string) Node) (cur : list string)
    (comps : list string) : option (list string) :=
  match comps with
  | [] => Some cur
  | c :: rest =>
      let nxt := if String.eqb c ".." then removelast cur else (cur ++ [c])%list in
      if is_dir_at n nxt then resolve n nxt rest else None
  end.

(** [p.is_dir()] *)
Definition is_dir (o : OS) (p : Path) : bool :=
  (is_dir_at (nodes o) (start_of o p)
   && bool_decide (is_Some (resolve (nodes o) (start_of o p) (parts p))))%bool.

End Sys.

(** ** The dataclasses of settings.py *)

Module Config.
Import Text Pathlib Sys.

(** A path-valued field holds what the caller passed, a [str] or a
    [Path], until [__post_init__] replaces it by [Path(...)] of it. *)
Inductive PathLike : Type :=
| PStr (s : string)
| PPath (p : Path).

(** [Path(x)] *)
Definition Path_of (x : PathLike) : Path :=
  match x with
  | PStr s => Path_of_str s
  | PPath p => p
  end.

(** A dataclass field of [__init__]: the argument when one is passed, the
    default factory otherwise. *)
Definition field_or {A} (arg : option A) (factory : M OS A) : M OS A :=
  match arg with
  | Some a => ret a
  | None => factory
  end.

(** *** ModelConfig *)

Record ModelConfig : Type := mkModelConfig {
  default_model : string;
  cache_dir : option Path;
  device : string;
  max_length : Z;
  batch_size : Z;
  precision : string
}.

Record ModelConfigArgs : Type := mkModelConfigArgs {
  a_default_model : option string;
  a_cache_dir : option Path;
  a_device : option string;
  a_max_length : option Z;
  a_batch_size : option Z;
  a_precision : option string
}.

Definition ModelConfig_no_args : ModelConfigArgs :=
  mkModelConfigArgs None None None None None None.

Definition ModelConfig__post_init__ (self : ModelConfig) : M OS ModelConfig :=
  match cache_dir self with
  | None =>
      let* h := Path_home in
      ret (mkModelConfig (default_model self)
             (Some (h // ".cache" // "huggingface"))
             (device self) (max_length self) (batch_size self) (precision self))
  | Some _ => ret self
  end.

Definition ModelConfig__init__ (a : ModelConfigArgs) : M OS ModelConfig :=
  ModelConfig__post_init__
    (mkModelConfig
       (default "meta-llama/Llama-2-7b-hf" (a_default_model a))
       (a_cache_dir a)
       (default "mps" (a_device a))
       (default 512 (a_max_length a))
       (default 8 (a_batch_size a))
       (default "float16" (a_precision a))).

(** *** TrainingConfig (float fields are kept as the rationals their
    literals denote) *)

Record TrainingConfig : Type := mkTrainingConfig {
  learning_rate : Q;
  num_epochs : Z;
  warmup_steps : Z;
  weight_decay : Q;
  logging_steps : Z;
  save_steps : Z;
  eval_steps : Z;
  output_dir : PathLike
}.

Record TrainingConfigArgs : Type := mkTrainingConfigArgs {
  a_learning_rate : option Q;
  a_num_epochs : option Z;
  a_warmup_steps : option Z;
  a_weight_decay : option Q;
  a_logging_steps : option Z;
  a_save_steps : option Z;
  a_eval_steps : option Z;
  a_output_dir : option PathLike
}.

Definition TrainingConfig_no_args : TrainingConfigArgs :=
  mkTrainingConfigArgs None None None None None None None None.

(** The directory [__post_init__] will ensure. *)
Definition training_dir (a : TrainingConfigArgs) : Path :=
  Path_of (default (PPath (Path_of_str "./outputs")) (a_output_dir a)).

Definition TrainingConfig__post_init__ (self : TrainingConfig) : M OS TrainingConfig :=
  let p := Path_of (output_dir self) in
  let* _ := mkdir_parents p in
  ret (mkTrainingConfig (learning_rate self) (num_epochs self) (warmup_steps self)
         (weight_decay self) (logging_steps self) (save_steps self)
         (eval_steps self) (PPath p)).

Definition TrainingConfig__init__ (a : TrainingConfigArgs) : M OS TrainingConfig :=
  TrainingConfig__post_init__
    (mkTrainingConfig
       (default (2 # 100000)%Q (a_learning_rate a))
       (default 3 (a_num_epochs a))
       (default 500 (a_warmup_steps a))
       (default (1 # 100)%Q (a_weight_decay a))
       (default 100 (a_logging_steps a))
       (default 1000 (a_save_steps a))
       (default 500 (a_eval_steps a))
       (default (PPath (Path_of_str "./outputs")) (a_output_dir a))).

(** *** DataConfig *)

Record DataConfig : Type := mkDataConfig {
  data_dir : PathLike;
  dataset_name : option string;
  train_split : string;
  validation_split : string;
  test_split : string;
  max_samples : option Z
}.

Record DataConfigArgs : Type := mkDataConfigArgs {
  a_data_dir : option PathLike;
  a_dataset_name : option string;
  a_train_split : option string;
  a_validation_split : option string;
  a_test_split : option string;
  a_max_samples : option Z
}.

Definition DataConfig_no_args : DataConfigArgs :=
  mkDataConfigArgs None None None None None None.

(** The directory [__post_init__] will ensure. *)
Definition data_dir_of (a : DataConfigArgs) : Path :=
  Path_of (default (PPath (Path_of_str "./data")) (a_data_dir a)).

Definition DataConfig__post_init__ (self : DataConfig) : M OS DataConfig :=
  let p := Path_of (data_dir self) in
  let* _ := mkdir_parents p in
  ret (mkDataConfig (PPath p) (dataset_name self) (train_split self)
         (validation_split self) (test_split self) (max_samples self)).

Definition DataConfig__init__ (a : DataConfigArgs) : M OS DataConfig :=
  DataConfig__post_init__
    (mkDataConfig
       (default (PPath (Path_of_str "./data")) (a_data_dir a))
       (a_dataset_name a)
       (default "train" (a_train_split a))
       (default "validation" (a_validation_split a))
       (default "test" (a_test_split a))
       (a_max_samples a)).

(** *** Settings *)

Record Settings : Type := mkSettings {
  env : string;
  debug : bool;
  log_level : string;
  hf_token : option string;
  hf_home : PathLike;
  model : ModelConfig;
  training : TrainingConfig;
  data : DataConfig;
  api_host : string;
  api_port : Z;
  num_workers : Z
}.

Record SettingsArgs : Type := mkSettingsArgs {
  a_env : option string;
  a_debug : option bool;
  a_log_level : option string;
  a_hf_token : option (option string);
  a_hf_home : option PathLike;
  a_model : option ModelConfig;
  a_training : option TrainingConfig;
  a_data : option DataConfig;
  a_api_host : option string;
  a_api_port : option Z;
  a_num_workers : option Z
}.

Definition Settings_no_args : SettingsArgs :=
  mkSettingsArgs None None None None None None None None None None None.

Definition set_hf_home (x : PathLike) (s : Settings) : Settings :=
  mkSettings (env s) (debug s) (log_level s) (hf_token s) x (model s)
    (training s) (data s) (api_host s) (api_port s) (num_workers s).

(** [if self.hf_token:] is false for [None] and for the empty string. *)
Definition token_truthy (t : option string) : bool :=
  match t with
  | Some s => truthy s
  | None => false
  end.

(** The write to the environment table that the token causes. *)
Definition token_writes (t : option string) : list Event :=
  match t with
  | Some v => if truthy v then [EPutenv "HF_TOKEN" v] else []
  | None => []
  end.

Definition Settings__post_init__ (self : Settings) : M OS Settings :=
  let p := Path_of (hf_home self) in
  let* _ := mkdir_parents p in
  let* _ := putenv "HF_HOME" (str p) in
  let* _ :=
    match hf_token self with
    | Some t => if truthy t then putenv "HF_TOKEN" t else ret tt
    | None => ret tt
    end in
  ret (set_hf_home (PPath p) self).

(** What the default factories of [debug] and [hf_home] compute. *)
Definition debug_of_env (o : OS) : bool :=
  String.eqb (lower (default "false" (environ o !! "DEBUG"))) "true".

Definition default_hf_home (h : Path) : Path :=
  h // ".cache" // "huggingface".

(** A sub-configuration built by default touches neither the
    environment table nor the working directory, and only adds to the
    record of calls. *)
Definition os_frame (o o1 : OS) : Prop :=
  environ o1 = environ o /\ cwd o1 = cwd o /\
  exists pre, events o1 = (events o ++ pre)%list.

Section Parsing.

(** [int(text)] of the Python runtime: [None] stands for [ValueError]. *)
Variable int_of_str : string -> option Z.

Definition py_int (s : string) : M OS Z :=
  match int_of_str s with
  | Some z => ret z
  | None => raise ValueError
  end.

(** The default factories, in the order of the field declarations. *)
Definition Settings__init__ (a : SettingsArgs) : M OS Settings :=
  let* f_env := field_or (a_env a) (getenv_default "ENVIRONMENT" "development") in
  let* f_debug := field_or (a_debug a)
    (let* v := getenv_default "DEBUG" "false" in
     ret (String.eqb (lower v) "true")) in
  let* f_log_level := field_or (a_log_level a) (getenv_default "LOG_LEVEL" "INFO") in
  let* f_hf_token := field_or (a_hf_token a) (getenv "HF_TOKEN") in
  let* f_hf_home := field_or (a_hf_home a)
    (let* h := Path_home in
     let* v := getenv_default "HF_HOME" (str (h // ".cache" // "huggingface")) in
     ret (PPath (Path_of_str v))) in
  let* f_model := field_or (a_model a) (ModelConfig__init__ ModelConfig_no_args) in
  let* f_training := field_or (a_training a)
    (TrainingConfig__init__ TrainingConfig_no_args) in
  let* f_data := field_or (a_data a) (DataConfig__init__ DataConfig_no_args) in
  let* f_api_host := field_or (a_api_host a) (getenv_default "API_HOST" "0.0.0.0") in
  let* f_api_port := field_or (a_api_port a)
    (let* v := getenv_default "API_PORT" "8000" in py_int v) in
  let* f_num_workers := field_or (a_num_workers a)
    (let* v := getenv_default "NUM_WORKERS" "4" in py_int v) in
  Settings__post_init__
    (mkSettings f_env f_debug f_log_level f_hf_token f_hf_home f_model
       f_training f_data f_api_host f_api_port f_num_workers).

(** What holds of the fields and of the state when [__init__] reaches
    [__post_init__]: [o] is the state before, [o1] the state at that
    point, [s0] the object with its fields assigned. *)
Record prepared (a : SettingsArgs) (o : OS) (s0 : Settings) (o1 : OS) : Prop := {
  prep_environ : environ o1 = environ o;
  prep_cwd : cwd o1 = cwd o;
  prep_events : exists pre, events o1 = (events o ++ pre)%list;
  prep_debug : debug s0 = default (debug_of_env o) (a_debug a);
  prep_hf_token : hf_token s0 = default (environ o !! "HF_TOKEN") (a_hf_token a);
  prep_hf_home :
    match a_hf_home a with
    | Some x => hf_home s0 = x
    | None =>
        exists h, Path_home o = (inr h, o) /\
          hf_home s0 =
            PPath (Path_of_str
                     (default (str (default_hf_home h)) (environ o !! "HF_HOME")))
    end;
  prep_api_port :
    a_api_port a = None ->
    int_of_str (default "8000" (environ o !! "API_PORT")) = Some (api_port s0);
  prep_num_workers :
    a_num_workers a = None ->
    int_of_str (default "4" (environ o !! "NUM_WORKERS")) = Some (num_workers s0)
}.

End Parsing.

End Config.

(** ** The module-level singleton *)

Module Provider.
Import Text Pathlib Sys Config.

(** Objects are identified by their position in [heap]; an object is
    never moved or dropped, so two references are the same object exactly
    when the positions are equal.  [_settings] is the global of that
    name: [None] is Python's [None]. *)
Record Proc : Type := mkProc {
  os : OS;
  heap : list Settings;
  _settings : option nat
}.

Definition lift_os {A} (m : M OS A) : M Proc A :=
  fun s =>
    let '(r, o') := m (os s) in
    (r, mkProc o' (heap s) (_settings s)).

Definition alloc (v : Settings) : M Proc nat :=
  fun s => (inr (length (heap s)), mkProc (os s) (heap s ++ [v])%list (_settings s)).

Definition set__settings (v : option nat) : M Proc unit :=
  modify (fun s => mkProc (os s) (heap s) v).

Section Parsing.

Variable int_of_str : string -> option Z.

(** [Settings(...)]: the fields are computed, then the new object is
    handed out. *)
Definition Settings_new (a : SettingsArgs) : M Proc nat :=
  let* v := lift_os (Settings__init__ int_of_str a) in
  alloc v.

Definition get_settings (reload : bool) : M Proc (option nat) :=
  let* cur := gets _settings in
  let* _ :=
    if (bool_decide (cur = None) || reload)%bool then
      let* l := Settings_new Settings_no_args in
      set__settings (Some l)
    else ret tt in
  gets _settings.

Definition load_settings_from_env : M Proc (option nat) :=
  get_settings true.

(** The reload operation as the specification words it: always build a
    new instance from the environment, put it in the slot in place of
    whatever was there, and return it. *)
Definition reload_spec : M Proc (option nat) :=
  let* l := Settings_new Settings_no_args in
  let* _ := set__settings (Some l) in
  ret (Some l).

(** What a program does over time: calls to [get_settings], and
    anything else, which may change the environment table and the file
    system and may build objects of its own, but does not assign the
    global.  Assignments to the fields of an existing settings object
    are not among these actions. *)
Inductive Action : Type :=
| Call (reload : bool)
| Ambient (o : OS) (objs : list Settings).

Definition is_call_noreload (a : Action) : bool :=
  match a with
  | Call r => negb r
  | Ambient _ _ => true
  end.

(** The outcomes of the calls, oldest first, and the state reached. *)
Fixpoint run (acts : list Action) (s : Proc)
  : list (Exn + option nat) * Proc :=
  match acts with
  | [] => ([], s)
  | Call r :: rest =>
      let '(x, s1) := get_settings r s in
      let '(xs, s2) := run rest s1 in
      (x :: xs, s2)
  | Ambient o objs :: rest =>
      run rest (mkProc o (heap s ++ objs)%list (_settings s))
  end.

End Parsing.

(** The state of a process that has just imported the module. *)
Definition fresh_proc (o : OS) : Proc := mkProc o [] None.

(** The global refers to an object that exists. *)
Definition slot_ok (s : Proc) : Prop :=
  match _settings s with
  | Some l => (l < length (heap s))%nat
  | None => True
  end.

End Provider.

(** ** A parser of plain decimal text, to run the examples

    Surrounding ASCII white space, an optional sign, and ASCII decimal
    digits with single underscores between them.  It is not [int]: [int]
    also reads digits and white space outside ASCII and bounds the number
    of digits.  The properties take the parser as a parameter; this one
    is used on concrete inputs only, at texts where it agrees with
    [int]. *)

Module AsciiInt.

Definition is_space (c : ascii) : bool :=
  let n := nat_of_ascii c in
  ((Nat.leb 9 n && Nat.leb n 13) || Nat.eqb n 32)%bool.

Definition is_digit (c : ascii) : bool :=
  let n := nat_of_ascii c in
  (Nat.leb 48 n && Nat.leb n 57)%bool.

Definition digit_val (c : ascii) : Z := Z.of_nat (nat_of_ascii c) - 48.

Fixpoint lstrip (l : list ascii) : list ascii :=
  match l with
  | c :: r => if is_space c then lstrip r else l
  | [] => []
  end.

Definition strip (l : list ascii) : list ascii :=
  lstrip (rev (lstrip (rev l))).

Fixpoint digits (acc : Z) (after_digit : bool) (l : list ascii) : option Z :=
  match l with
  | [] => if after_digit then Some acc else None
  | c :: r =>
      if is_digit c then digits (10 * acc + digit_val c) true r
      else if (Ascii.eqb c "_"%char && after_digit)%bool then digits acc false r
      else None
  end.

Definition int_of_str (s : string) : option Z :=
  match strip (list_ascii_of_string s) with
  | c :: r =>
      if Ascii.eqb c "-"%char then option_map Z.opp (digits 0 false r)
      else if Ascii.eqb c "+"%char then digits 0 false r
      else digits 0 false (c :: r)
  | [] => None
  end.

End AsciiInt.

(** ** Concrete states used to exercise the definitions *)

Module Examples.
Import Text Pathlib Sys Config Provider.

(** A machine whose file system holds only the working directory
    [/work], with [HOME=/home/u]. *)
Definition ex_os : OS :=
  mkOS (<["HOME" := "/home/u"]> ∅) (<[ ["work"] := Dir ]> ∅) ∅ ["work"] "/root" [].

Definition ex_env (k v : string) : OS :=
  set_environ (insert k v) ex_os.

Definition ex_cache : Path := Path_of_str "/home/u/.cache/huggingface".

(** [Settings(hf_token="")] *)
Definition ex_empty_token_args : SettingsArgs :=
  mkSettingsArgs None None None (Some (Some "")) None None None None None None None.

(** The same machine with [API_PORT=not-a-number], with
    [HF_TOKEN=abc123], and with [DEBUG=TRUE]. *)
Definition ex_bad_port : OS := ex_env "API_PORT" "not-a-number".
Definition ex_token : OS := ex_env "HF_TOKEN" "abc123".
Definition ex_debug : OS := ex_env "DEBUG" "TRUE".

(** What [Settings()] is expected to hold on that machine. *)
Definition ex_settings (dbg : bool) (tok : option string) : Settings :=
  mkSettings "development" dbg "INFO" tok (PPath ex_cache)
    (mkModelConfig "meta-llama/Llama-2-7b-hf" (Some ex_cache) "mps" 512 8 "float16")
    (mkTrainingConfig (2 # 100000)%Q 3 500 (1 # 100)%Q 100 1000 500
       (PPath (Path_of_str "outputs")))
    (mkDataConfig (PPath (Path_of_str "data")) None "train" "validation" "test" None)
    "0.0.0.0" 8000 4.

(** A process that has called [get_settings()] once, and the same process
    after [API_PORT] was then set to text that is not a number. *)
Definition ex_initialized : Proc :=
  snd (get_settings AsciiInt.int_of_str false (fresh_proc ex_os)).

Definition ex_initialized_bad_port : Proc :=
  mkProc ex_bad_port (heap ex_initialized) (_settings ex_initialized).

Definition ex_calls : list Action :=
  [Call false; Ambient ex_debug []; Call false].

End Examples.

(** ** scripts/generate_diagrams.py

    The script shells out to [mmdc].  What a child process does is not
    the script's: [subprocess.run] is a parameter that gives the outcome
    of a command and the state it leaves.  So are the enumeration of
    [directory.rglob("*.mmd")], whose order is the operating system's,
    the answer of [Path.exists()], which is the operating system's too,
    [str.upper], and what [argparse] makes of the command line.  Writing
    to standard output is taken to succeed. *)

Module Diagrams.
Import Text Pathlib Sys.

(** The outcomes of [subprocess.run]: [FileNotFoundError]; any other
    exception it raises itself, such as another [OSError] when the
    program cannot be started or [UnicodeDecodeError], a [ValueError],
    when the output of the child is not text; or a child that ran to its
    end, with its status and its decoded output. *)
Inductive Spawn : Type :=
| NotFound
| Raised (e : Exn)
| Completed (returncode : Z) (out err : string).

(** The state of the script: the operating-system side, what was written
    to standard output, and the commands run with their outcomes, oldest
    first. *)
Record Script : Type := mkScript {
  s_os : OS;
  stdout : string;
  spawned : list (list string * Spawn)
}.

Definition lift {A} (m : M OS A) : M Script A :=
  fun s =>
    let '(r, o') := m (s_os s) in
    (r, mkScript o' (stdout s) (spawned s)).

Definition nl : string := String "010"%char EmptyString.

(** [print(text, end=e)] *)
Definition print_end (text e : string) : M Script unit :=
  modify (fun s => mkScript (s_os s) (stdout s ++ text ++ e) (spawned s)).

(** [print(text)] *)
Definition print (text : string) : M Script unit := print_end text nl.

(** [p.name]: the last component, or the empty text. *)
Definition name (p : Path) : string := List.last (parts p) EmptyString.

(** [s.rfind(".")] *)
Fixpoint rfind_dot (s : string) : option nat :=
  match s with
  | EmptyString => None
  | String c r =>
      match rfind_dot r with
      | Some i => Some (S i)
      | None => if Ascii.eqb c "."%char then Some 0%nat else None
      end
  end.

(** [p.stem]: the name up to its last dot, when that dot is neither the
    first nor the last character (pathlib up to Python 3.12). *)
Definition stem (p : Path) : string :=
  let n := name p in
  match rfind_dot n with
  | Some i =>
      if (Nat.ltb 0 i && Nat.ltb i (String.length n - 1))%bool
      then String.substring 0 i n else n
  | None => n
  end.

(** [output_dir / f"{input_file.stem}.{format}"] *)
Definition output_file_of (input_file output_dir : Path) (format : string) : Path :=
  output_dir // (stem input_file ++ "." ++ format).

(** The command line [generate_diagram] builds. *)
Definition mmdc_cmd (input_file output_dir : Path) (format background : string)
  : list string :=
  ["mmdc"; "-i"; str input_file;
   "-o"; str (output_file_of input_file output_dir format);
   "-b"; background].

Definition version_cmd : list string := ["mmdc"; "--version"].

(** Whether an outcome is a run that exited with status 0. *)
Definition exited_0 (r : Spawn) : bool :=
  match r with
  | Completed rc _ _ => Z.eqb rc 0
  | _ => false
  end.

Definition count_ok (l : list (list string * Spawn)) : nat :=
  length (List.filter (fun e => exited_0 (snd e)) l).

(** The parsed command line. *)
Record Args : Type := mkArgs {
  input_dir : Path;
  output_dir : Path;
  formats : list string;
  background : string;
  file : option Path
}.

(** The command lines of a whole run: for each file, in order, one per
    format, in order. *)
Definition all_commands (a : Args) (mermaid_files : list Path) : list (list string) :=
  flat_map
    (fun f => List.map (fun fmt => mmdc_cmd f (output_dir a) fmt (background a))
                (formats a))
    mermaid_files.

(** How [main] ends: by returning, or by [sys.exit(code)]. *)
Inductive Exit : Type :=
| Return
| SysExit (code : Z).


(** A loop that carries a counter. *)
Fixpoint for_each {A} (l : list A) (body : A -> nat -> M Script nat) (acc : nat)
  : M Script nat :=
  match l with
  | [] => ret acc
  | x :: rest => let* acc' := body x acc in for_each rest body acc'
  end.

Section Tool.

Variable subprocess_run : list string -> OS -> Spawn * OS.
Variable rglob_mmd : OS -> Path -> list Path.

(** [p.exists()]: the answer, or the [OSError] it lets through (a name
    that is too long, a directory that may not be searched). *)
Variable path_exists : OS -> Path -> Exn + bool.

Variable upper : string -> string.

(** [parser.parse_args()]: the parsed arguments, or, when [argparse]
    ends the script itself, what it wrote to standard output and the
    status of its [SystemExit] (2 for a command line it rejects, 0 after
    [--help]). *)
Variable parse_args : list string -> (string * Z) + Args.

Definition exists_ (p : Path) : M Script bool :=
  fun s => (path_exists (s_os s) p, s).

(** [subprocess.run(cmd, capture_output=True, text=True, ...)] *)
Definition spawn (cmd : list string) : M Script Spawn :=
  fun s =>
    let '(r, o') := subprocess_run cmd (s_os s) in
    (inr r, mkScript o' (stdout s) (spawned s ++ [(cmd, r)])%list).

Definition check_mermaid_cli : M Script bool :=
  let* r := spawn version_cmd in
  match r with
  | Completed rc _ _ => ret (Z.eqb rc 0)
  | NotFound => ret false
  | Raised e => raise e
  end.

Definition find_mermaid_files (directory : Path) : M Script (list Path) :=
  gets (fun s => rglob_mmd (s_os s) directory).

(** [format] and [background] default to ["pdf"] and ["transparent"]. *)
Definition generate_diagram (input_file output_dir : Path)
    (format background : option string) : M Script bool :=
  let fmt := default "pdf" format in
  let bg := default "transparent" background in
  let output_file := output_file_of input_file output_dir fmt in
  let* _ := lift (mkdir_parents output_dir) in
  let cmd := mmdc_cmd input_file output_dir fmt bg in
  let* _ := print_end ("Generating " ++ upper fmt ++ " from " ++ name input_file ++ "...")
              " " in
  let* r := spawn cmd in
  match r with
  | Completed rc _ err =>
      if Z.eqb rc 0 then
        let* _ := print ("✓ Saved to " ++ str output_file) in
        ret true
      else
        let* _ := print "✗ Failed" in
        let* _ := print ("Error: " ++ err) in
        ret false
  | NotFound => raise OSError
  | Raised e => raise e
  end.

(** The two nested [for] loops of [main]. *)
Definition generate_all (a : Args) (mermaid_files : list Path) : M Script nat :=
  for_each mermaid_files
    (fun mermaid_file count =>
       for_each (formats a)
         (fun fmt count =>
            let* ok := generate_diagram mermaid_file (output_dir a)
                         (Some fmt) (Some (background a)) in
            ret (if ok then S count else count))
         count)
    0%nat.

(** The part of [main] that finds the files to process, or takes the
    exit for a [--file] that does not exist. *)
Definition files_to_process (a : Args) : M Script (Exit + list Path) :=
  match file a with
  | Some f =>
      let* ex := exists_ f in
      if negb ex then
        let* _ := print ("Error: File not found: " ++ str f) in
        ret (inl (SysExit 1))
      else ret (inr [f])
  | None =>
      let* ex := exists_ (input_dir a) in
      let* _ :=
        if negb ex then
          let* _ := print ("Error: Directory not found: " ++ str (input_dir a)) in
          let* _ := print ("Creating directory: " ++ str (input_dir a)) in
          lift (mkdir_parents (input_dir a))
        else ret tt in
      let* fs := find_mermaid_files (input_dir a) in
      ret (inr fs)
  end.

(** The body of [main()] once the command line is parsed. *)
Definition main (a : Args) : M Script Exit :=
  let* ok := check_mermaid_cli in
  if negb ok then
    let* _ := print "Error: mermaid-cli (mmdc) not found!" in
    let* _ := print "Install it with: npm install -g @mermaid-js/mermaid-cli" in
    ret (SysExit 1)
  else
    let* found := files_to_process a in
    match found with
    | inl e => ret e
    | inr [] =>
        let* _ := print ("No .mmd files found in " ++ str (input_dir a)) in
        ret (SysExit 0)
    | inr mermaid_files =>
        let* _ := print ("Found " ++ pretty (length mermaid_files) ++ " Mermaid file(s)") in
        let* _ := print "" in
        let total_count := (length mermaid_files * length (formats a))%nat in
        let* success_count := generate_all a mermaid_files in
        let* _ := print "" in
        let* _ := print ("Generated " ++ pretty success_count ++ "/"
                          ++ pretty total_count ++ " diagram(s)") in
        if Nat.ltb success_count total_count then ret (SysExit 1) else ret Return
    end.


End Tool.

End Diagrams.

(** ** Concrete tools and arguments used to exercise the script *)

Module DiagramExamples.
Import Text Pathlib Sys Diagrams Examples.

(** [str.upper] on ASCII text. *)
Definition upper_ascii (c : ascii) : ascii :=
  let n := nat_of_ascii c in
  if (Nat.leb 97 n && Nat.leb n 122)%bool then ascii_of_nat (n - 32) else c.

Fixpoint upper (s : string) : string :=
  match s with
  | EmptyString => EmptyString
  | String c r => String (upper_ascii c) (upper r)
  end.

(** A tool that always succeeds, one that is not installed, and one that
    fails on the diagram it is asked to write to [docs/diagrams/b.pdf]. *)
Definition tool_ok (cmd : list string) (o : OS) : Spawn * OS :=
  (Completed 0 "" "", o).


Definition tool_flaky (cmd : list string) (o : OS) : Spawn * OS :=
  if bool_decide (nth 4 cmd "" = "docs/diagrams/b.pdf")
  then (Completed 1 "" "Parse error", o)
  else (Completed 0 "" "", o).

Definition two_files (o : OS) (d : Path) : list Path :=
  [Path_of_str "docs/mermaid/a.mmd"; Path_of_str "docs/mermaid/sub/b.mmd"].

Definition no_files (o : OS) (d : Path) : list Path := [].

Definition ex_args : Args :=
  mkArgs (Path_of_str "docs/mermaid") (Path_of_str "docs/diagrams")
    ["pdf"; "png"] "transparent" None.


(** Walk to what a path names: every component before the last must be
    a directory. *)
Fixpoint stat (n : gmap (list string) Node) (cur : list string)
    (comps : list string) : option Node :=
  match comps with
  | [] => node_at n cur
  | c :: rest =>
      if is_dir_at n cur then
        stat n (if String.eqb c ".." then removelast cur else (cur ++ [c])%list) rest
      else None
  end.

(** An answer of [p.exists()] read off the store: an error for a
    component of more than 255 bytes, otherwise whether the path leads
    somewhere. *)
Definition store_exists (o : OS) (p : Path) : Exn + bool :=
  if existsb (fun c => Nat.ltb 255 (String.length c)) (parts p) then inl OSError
  else
    inr (negb (existsb (has_char nul) (parts p))
         && bool_decide (is_Some (stat (nodes o) (start_of o p) (parts p))))%bool.



Definition ex_script : Script := mkScript ex_os "" [].




End DiagramExamples.

(** ** More concrete inputs for the settings *)

Module MoreExamples.
Import Text Pathlib Sys Config Provider Examples.

(** [Settings(env="production", debug=True, api_port=9000, num_workers=2)] *)
Definition ex_explicit_args : SettingsArgs :=
  mkSettingsArgs (Some "production") (Some true) None None None None None None None
    (Some 9000) (Some 2).

(** The example machine with [HF_HOME=/data//hf/]. *)
Definition ex_hf_env : OS := ex_env "HF_HOME" "/data//hf/".

(** [TrainingConfig(output_dir="runs//exp1/")] *)
Definition ex_training_args : TrainingConfigArgs :=
  mkTrainingConfigArgs None None None None None None None (Some (PStr "runs//exp1/")).

(** The object a construction returned; the example settings stand in
    when it raised. *)
Definition returned (r : (Exn + Settings) * OS) : Settings :=
  match fst r with
  | inr s => s
  | inl _ => ex_settings false None
  end.

Definition returned_training (r : (Exn + TrainingConfig) * OS) : PathLike :=
  match fst r with
  | inr t => output_dir t
  | inl _ => PStr ""
  end.

(** A parser that rejects every text. *)
Definition int_never (s : string) : option Z := None.

End MoreExamples.

(** ** The stages of [Settings.__init__], named *)

Module Stages.
Import Text Pathlib Sys Config.

(** The default factory of [hf_home]. *)
Definition hf_home_factory : M OS PathLike :=
  let* h := Path_home in
  let* v := getenv_default "HF_HOME" (str (h // ".cache" // "huggingface")) in
  ret (PPath (Path_of_str v)).

(** [o1] is [o] with, at most, more directories and more recorded calls:
    the environment table, the working directory, the password database
    and the permissions are the same, and every directory of [o] is a
    directory of [o1]. *)
Definition grows (o o1 : OS) : Prop :=
  environ o1 = environ o /\ cwd o1 = cwd o /\ pw_dir o1 = pw_dir o /\
  denied o1 = denied o /\
  forall q, is_dir o q = true -> is_dir o1 q = true.

(** The variables of the environment table that construction may write. *)
Definition exported (k : string) : bool :=
  (String.eqb k "HF_HOME" || String.eqb k "HF_TOKEN")%bool.

Section Parsing.

Variable int_of_str : string -> option Z.

(** The default factory of an integer field read from variable [k]. *)
Definition int_factory (k d : string) : M OS Z :=
  let* v := getenv_default k d in py_int int_of_str v.

(** The object as [__init__] has assigned it when [__post_init__] starts:
    the text fields come from the arguments or from the environment table
    of [o], the others are the values the stages produced. *)
Definition assigned (a : SettingsArgs) (o : OS) (hh : PathLike)
    (m : ModelConfig) (t : TrainingConfig) (d : DataConfig) (zp zw : Z) : Settings :=
  mkSettings
    (default (default "development" (environ o !! "ENVIRONMENT")) (a_env a))
    (default (debug_of_env o) (a_debug a))
    (default (default "INFO" (environ o !! "LOG_LEVEL")) (a_log_level a))
    (default (environ o !! "HF_TOKEN") (a_hf_token a))
    hh m t d
    (default (default "0.0.0.0" (environ o !! "API_HOST")) (a_api_host a))
    zp zw.

(** The stages that can raise or change the state ran as follows. *)
Definition staged (a : SettingsArgs) (o : OS) (hh : PathLike)
    (m : ModelConfig) (t : TrainingConfig) (d : DataConfig) (zp zw : Z)
    (o7 o8 : OS) : Prop :=
  field_or (a_hf_home a) hf_home_factory o = (inr hh, o) /\
  field_or (a_model a) (ModelConfig__init__ ModelConfig_no_args) o = (inr m, o) /\
  field_or (a_training a) (TrainingConfig__init__ TrainingConfig_no_args) o = (inr t, o7) /\
  field_or (a_data a) (DataConfig__init__ DataConfig_no_args) o7 = (inr d, o8) /\
  field_or (a_api_port a) (int_factory "API_PORT" "8000") o8 = (inr zp, o8) /\
  field_or (a_num_workers a) (int_factory "NUM_WORKERS" "4") o8 = (inr zw, o8).

End Parsing.

End Stages.

(** * Properties *)

(** ** Paths: [Path(str(p))] gives [p] back *)

Module PathFacts.
Import Text Pathlib.

Lemma has_char_slash_cons c x :
  has_char slash (String c x) = false ->
  is_slash c = false /\ has_char slash x = false.
Proof.
  simpl. unfold is_slash. intros H. apply orb_false_iff in H. exact H.
Qed.

Lemma split_slash_no_slash x :
  has_char slash x = false -> split_slash x = [x].
Proof.
  induction x as [|c x IH]; intros H; [reflexivity|].
  apply has_char_slash_cons in H as [Hc Hx].
  simpl. rewrite Hc, (IH Hx). reflexivity.
Qed.

Lemma split_slash_app x s :
  has_char slash x = false ->
  split_slash (x ++ String slash s) = x :: split_slash s.
Proof.
  induction x as [|c x IH]; intros H.
  - reflexivity.
  - apply has_char_slash_cons in H as [Hc Hx].
    simpl. rewrite Hc, (IH Hx). reflexivity.
Qed.

Lemma split_join l :
  l <> [] ->
  Forall (fun x => has_char slash x = false) l ->
  split_slash (join_slash l) = l.
Proof.
  induction l as [|x l IH]; intros Hne Hall; [congruence|].
  inversion Hall as [|? ? Hx Hl]; subst.
  destruct l as [|y l].
  - simpl. apply split_slash_no_slash, Hx.
  - change (join_slash (x :: y :: l))
      with (x ++ String slash (join_slash (y :: l))).
    rewrite split_slash_app by exact Hx.
    rewrite IH; [reflexivity|discriminate|exact Hl].
Qed.

Lemma split_slash_parts s :
  Forall (fun x => has_char slash x = false) (split_slash s).
Proof.
  induction s as [|c s IH]; simpl.
  - repeat constructor.
  - destruct (is_slash c) eqn:Hc.
    + constructor; [reflexivity|exact IH].
    + destruct (split_slash s) as [|h t].
      * repeat constructor. simpl. unfold is_slash in Hc. rewrite Hc. reflexivity.
      * inversion IH; subst. constructor; [|assumption].
        simpl. unfold is_slash in Hc. rewrite Hc. assumption.
Qed.

Lemma filter_keep_all l :
  Forall part_ok l -> List.filter keep_part l = l.
Proof.
  induction 1 as [|x l [Hk _] _ IH]; simpl; [reflexivity|].
  rewrite Hk, IH. reflexivity.
Qed.

Lemma Path_of_str_wf s : wf (Path_of_str s).
Proof.
  unfold Path_of_str, wf.
  destruct (splitroot s) as [r rel] eqn:E. simpl. split.
  - unfold splitroot in E.
    repeat match type of E with
           | context [match ?x with _ => _ end] => destruct x
           end; inversion E; lia.
  - pose proof (split_slash_parts rel) as H.
    induction H as [|x l Hx _ IH]; simpl; [constructor|].
    destruct (keep_part x) eqn:Hk; [|exact IH].
    constructor; [split; assumption|exact IH].
Qed.

Lemma truediv_wf p seg : wf p -> wf (p // seg).
Proof.
  intros [Hr Hp]. unfold truediv.
  pose proof (Path_of_str_wf seg) as [Hr' Hq].
  destruct (root (Path_of_str seg)) eqn:E.
  - split; simpl; [exact Hr|]. apply Forall_app; split; assumption.
  - split; [rewrite E; exact Hr'|exact Hq].
Qed.

Lemma part_ok_head x :
  part_ok x -> exists c r, x = String c r /\ is_slash c = false.
Proof.
  intros [Hk Hs]. destruct x as [|c r]; [discriminate|].
  apply has_char_slash_cons in Hs as [Hc _]. eauto.
Qed.

Lemma join_head x l :
  part_ok x ->
  exists c r, join_slash (x :: l) = String c r /\ is_slash c = false.
Proof.
  intros H. destruct (part_ok_head x H) as (c & r & -> & Hc).
  destruct l; simpl; eauto.
Qed.

Lemma Forall_part_no_slash l :
  Forall part_ok l -> Forall (fun x => has_char slash x = false) l.
Proof.
  intros H. induction H as [|x l [_ Hx] _ IH]; constructor; assumption.
Qed.

Lemma split_filter_join l :
  Forall part_ok l ->
  List.filter keep_part (split_slash (join_slash l)) = l.
Proof.
  intros H. destruct l as [|x l]; [reflexivity|].
  rewrite split_join; [|discriminate|apply Forall_part_no_slash, H].
  apply filter_keep_all, H.
Qed.

Theorem Path_of_str_str p : wf p -> Path_of_str (str p) = p.
Proof.
  destruct p as [r l]. intros [Hr Hl]. simpl in Hr, Hl.
  unfold str. simpl root. simpl parts.
  pose proof (split_filter_join l Hl) as Hsf.
  destruct l as [|x l].
  - destruct r as [|[|[|r]]]; try lia; reflexivity.
  - inversion Hl as [|? ? Hx _]; subst.
    destruct (join_head x l Hx) as (c & rest & Hj & Hc).
    unfold Path_of_str.
    destruct r as [|[|[|r]]]; try lia; simpl root_str; rewrite Hj in *;
      simpl; unfold is_slash in *; simpl; rewrite ?Hc; simpl;
      f_equal; exact Hsf.
Qed.

End PathFacts.

(** ** The file system: what [mkdir] guarantees *)

Module SysFacts.
Import Text Pathlib Sys.

Lemma is_dir_at_insert n k p :
  is_dir_at n p = true -> is_dir_at (<[k := Dir]> n) p = true.
Proof.
  unfold is_dir_at, node_at. destruct p as [|x p]; [reflexivity|].
  destruct (decide (k = x :: p)) as [->|Hne].
  - rewrite lookup_insert_eq. reflexivity.
  - rewrite lookup_insert_ne by exact Hne. tauto.
Qed.

Lemma is_dir_at_insert_eq n cur c :
  is_dir_at (<[(cur ++ [c])%list := Dir]> n) (cur ++ [c])%list = true.
Proof.
  unfold is_dir_at, node_at.
  destruct (cur ++ [c])%list eqn:E.
  - destruct cur; discriminate.
  - rewrite lookup_insert_eq. reflexivity.
Qed.

(** Directories are never removed or replaced by the walk. *)
Lemma mkdir_walk_mono den comps : forall cur n r n',
  mkdir_walk den cur comps n = (r, n') ->
  forall p, is_dir_at n p = true -> is_dir_at n' p = true.
Proof.
  induction comps as [|c rest IH]; intros cur n r n' H p Hp; simpl in H.
  - inversion H; subst. exact Hp.
  - destruct (String.eqb c "..").
    + destruct (is_dir_at n (removelast cur)).
      * eapply IH; eauto.
      * inversion H; subst. exact Hp.
    + destruct (node_at n (cur ++ [c])) as [[|]|].
      * eapply IH; eauto.
      * inversion H; subst. exact Hp.
      * destruct (bool_decide (cur ∈ den)).
        -- inversion H; subst. exact Hp.
        -- eapply IH; [exact H|]. apply is_dir_at_insert, Hp.
Qed.

(** After a walk that succeeds, every directory on the way is there. *)
Lemma mkdir_walk_resolve den comps : forall cur n n',
  mkdir_walk den cur comps n = (inr tt, n') ->
  is_Some (resolve n' cur comps).
Proof.
  induction comps as [|c rest IH]; intros cur n n' H; simpl in H |- *.
  - eauto.
  - destruct (String.eqb c "..").
    + destruct (is_dir_at n (removelast cur)) eqn:Hd; [|discriminate].
      rewrite (mkdir_walk_mono _ _ _ _ _ _ H _ Hd). eapply IH, H.
    + destruct (node_at n (cur ++ [c])) as [[|]|] eqn:Hn.
      * assert (Hd : is_dir_at n (cur ++ [c]) = true)
          by (unfold is_dir_at; rewrite Hn; reflexivity).
        rewrite (mkdir_walk_mono _ _ _ _ _ _ H _ Hd). eapply IH, H.
      * discriminate.
      * destruct (bool_decide (cur ∈ den)); [discriminate|].
        rewrite (mkdir_walk_mono _ _ _ _ _ _ H _ (is_dir_at_insert_eq n cur c)).
        eapply IH, H.
Qed.

(** What [mkdir] leaves alone, whether it succeeds or not. *)
Lemma mkdir_parents_frame p o r o' :
  mkdir_parents p o = (r, o') ->
  environ o' = environ o /\ cwd o' = cwd o /\ pw_dir o' = pw_dir o /\
  events o' = (events o ++ [EMkdir p])%list.
Proof.
  unfold mkdir_parents. intros H.
  destruct (existsb (has_char nul) (parts p)); [inversion H; subst; auto|].
  destruct (is_dir_at (nodes o) (start_of o p)); [|inversion H; subst; auto].
  destruct (mkdir_walk _ _ _ _) as [r1 n1]. inversion H; subst; auto.
Qed.

Lemma mkdir_parents_is_dir p o o' :
  mkdir_parents p o = (inr tt, o') -> is_dir o' p = true.
Proof.
  unfold mkdir_parents. intros H.
  destruct (existsb (has_char nul) (parts p)); [discriminate|].
  destruct (is_dir_at (nodes o) (start_of o p)) eqn:Hs; [|discriminate].
  destruct (mkdir_walk _ _ _ _) as [r1 n1] eqn:W.
  inversion H; subst. clear H.
  unfold is_dir. simpl nodes.
  change (start_of (set_nodes n1 (log (EMkdir p) o)) p) with (start_of o p).
  rewrite (mkdir_walk_mono _ _ _ _ _ _ W _ Hs). simpl.
  apply bool_decide_eq_true. eapply mkdir_walk_resolve, W.
Qed.

Lemma putenv_ok k v o o' :
  putenv k v o = (inr tt, o') ->
  environ o' = <[k := v]> (environ o) /\ nodes o' = nodes o /\
  cwd o' = cwd o /\ events o' = (events o ++ [EPutenv k v])%list.
Proof.
  unfold putenv. destruct (has_char nul v); [discriminate|].
  intros H. inversion H; subst. auto.
Qed.

Lemma is_dir_ext o o' p :
  nodes o' = nodes o -> cwd o' = cwd o -> is_dir o' p = is_dir o p.
Proof.
  intros Hn Hc. unfold is_dir, start_of. rewrite Hn, Hc. reflexivity.
Qed.

Lemma Path_home_ok o r o' :
  Path_home o = (r, o') -> o' = o.
Proof.
  unfold Path_home. destruct (starts_with_tilde _); intros H; inversion H; auto.
Qed.

Lemma Path_home_wf o h o' :
  Path_home o = (inr h, o') -> wf h.
Proof.
  unfold Path_home. destruct (starts_with_tilde _); intros H; inversion H.
  apply PathFacts.Path_of_str_wf.
Qed.

End SysFacts.

(** ** Construction of the dataclasses *)

Module ConfigFacts.
Import Text Pathlib Sys Config SysFacts.

Lemma bind_inv {St A B} (m : M St A) (k : A -> M St B) s r s' :
  bind m k s = (r, s') ->
  (exists e, m s = (inl e, s') /\ r = inl e) \/
  (exists a s1, m s = (inr a, s1) /\ k a s1 = (r, s')).
Proof.
  unfold bind. destruct (m s) as [[e|a] s1]; intros H.
  - left. inversion H; subst. eauto.
  - right. eauto.
Qed.

Lemma field_or_gets {A} (arg : option A) (f : OS -> A) o :
  field_or arg (gets f) o = (inr (default (f o) arg), o).
Proof. destruct arg; reflexivity. Qed.

Lemma field_or_gets_map {A B} (arg : option B) (f : OS -> A) (g : A -> B) o :
  field_or arg (let* v := gets f in ret (g v)) o
  = (inr (default (g (f o)) arg), o).
Proof. destruct arg; reflexivity. Qed.

(** *** The sub-configurations *)

Lemma ModelConfig__init__inv a o r o' :
  ModelConfig__init__ a o = (r, o') ->
  o' = o /\
  forall m, r = inr m ->
    match a_cache_dir a with
    | Some p => cache_dir m = Some p
    | None => exists h, Path_home o = (inr h, o) /\
                        cache_dir m = Some (h // ".cache" // "huggingface")
    end.
Proof.
  unfold ModelConfig__init__, ModelConfig__post_init__. simpl cache_dir.
  destruct (a_cache_dir a) as [p|].
  - intros H. inversion H; subst. split; [reflexivity|].
    intros m Hm. inversion Hm; subst. reflexivity.
  - intros H. apply bind_inv in H as [(e & H & ->)|(h & o1 & Hh & H)].
    + split; [eapply Path_home_ok, H|]. discriminate.
    + pose proof (Path_home_ok _ _ _ Hh) as ->.
      inversion H; subst. split; [reflexivity|].
      intros m Hm. inversion Hm; subst. eauto.
Qed.

Lemma TrainingConfig__init__inv a o r o' :
  TrainingConfig__init__ a o = (r, o') ->
  (environ o' = environ o /\ cwd o' = cwd o /\ pw_dir o' = pw_dir o /\
   events o' = (events o ++ [EMkdir (training_dir a)])%list) /\
  forall t, r = inr t ->
    output_dir t = PPath (training_dir a) /\ is_dir o' (training_dir a) = true.
Proof.
  unfold TrainingConfig__init__, TrainingConfig__post_init__. simpl output_dir.
  fold (training_dir a). intros H.
  apply bind_inv in H as [(e & H & ->)|([] & o1 & Hm & H)].
  - split; [eapply mkdir_parents_frame, H|discriminate].
  - inversion H; subst. split; [eapply mkdir_parents_frame, Hm|].
    intros t Ht. inversion Ht; subst. split; [reflexivity|].
    eapply mkdir_parents_is_dir, Hm.
Qed.

Lemma DataConfig__init__inv a o r o' :
  DataConfig__init__ a o = (r, o') ->
  (environ o' = environ o /\ cwd o' = cwd o /\ pw_dir o' = pw_dir o /\
   events o' = (events o ++ [EMkdir (data_dir_of a)])%list) /\
  forall d, r = inr d ->
    data_dir d = PPath (data_dir_of a) /\ is_dir o' (data_dir_of a) = true.
Proof.
  unfold DataConfig__init__, DataConfig__post_init__. simpl data_dir.
  fold (data_dir_of a). intros H.
  apply bind_inv in H as [(e & H & ->)|([] & o1 & Hm & H)].
  - split; [eapply mkdir_parents_frame, H|discriminate].
  - inversion H; subst. split; [eapply mkdir_parents_frame, Hm|].
    intros d Hd. inversion Hd; subst. split; [reflexivity|].
    eapply mkdir_parents_is_dir, Hm.
Qed.

End ConfigFacts.

(** ** Construction of [Settings] *)

Module SettingsFacts.
Import Text Pathlib Sys Config SysFacts ConfigFacts.

Section Parsing.

Variable int_of_str : string -> option Z.

Lemma field_or_hf_home arg o r o1 :
  field_or arg
    (let* h := Path_home in
     let* v := getenv_default "HF_HOME" (str (h // ".cache" // "huggingface")) in
     ret (PPath (Path_of_str v))) o = (r, o1) ->
  o1 = o /\
  forall x, r = inr x ->
    match arg with
    | Some y => x = y
    | None =>
        exists h, Path_home o = (inr h, o) /\
          x = PPath (Path_of_str
                       (default (str (default_hf_home h)) (environ o !! "HF_HOME")))
    end.
Proof.
  destruct arg as [y|]; simpl.
  - intros H. inversion H; subst. split; [reflexivity|].
    intros x Hx. inversion Hx; reflexivity.
  - intros H. apply bind_inv in H as [(e & H & ->)|(h & o2 & Hh & H)].
    + split; [eapply Path_home_ok, H|discriminate].
    + pose proof (Path_home_ok _ _ _ Hh) as ->.
      inversion H; subst. split; [reflexivity|].
      intros x Hx. inversion Hx; subst. eauto.
Qed.

Lemma field_or_int arg k d o r o1 :
  field_or arg (let* v := getenv_default k d in py_int int_of_str v) o = (r, o1) ->
  o1 = o /\
  forall z, r = inr z -> arg = None ->
    int_of_str (default d (environ o !! k)) = Some z.
Proof.
  destruct arg as [y|]; simpl.
  - intros H. inversion H; subst. split; [reflexivity|]. discriminate.
  - unfold bind, getenv_default, gets, py_int.
    destruct (int_of_str (default d (environ o !! k))) as [z|];
      intros H; inversion H; subst; (split; [reflexivity|]).
    + intros z' Hz _. inversion Hz; reflexivity.
    + discriminate.
Qed.

Lemma field_or_model arg o r o1 :
  field_or arg (ModelConfig__init__ ModelConfig_no_args) o = (r, o1) -> o1 = o.
Proof.
  destruct arg; simpl.
  - intros H. inversion H; reflexivity.
  - intros H. eapply ModelConfig__init__inv, H.
Qed.

Lemma os_frame_refl o : os_frame o o.
Proof. repeat split. exists []. rewrite app_nil_r. reflexivity. Qed.

Lemma os_frame_trans o o1 o2 : os_frame o o1 -> os_frame o1 o2 -> os_frame o o2.
Proof.
  intros (He & Hc & pre & Hp) (He' & Hc' & pre' & Hp').
  repeat split; [congruence|congruence|].
  exists (pre ++ pre')%list. rewrite Hp', Hp, app_assoc. reflexivity.
Qed.

Lemma field_or_training arg o r o1 :
  field_or arg (TrainingConfig__init__ TrainingConfig_no_args) o = (r, o1) ->
  os_frame o o1.
Proof.
  destruct arg; simpl.
  - intros H. inversion H; subst. apply os_frame_refl.
  - intros H. apply TrainingConfig__init__inv in H as [(He & Hc & _ & Hv) _].
    repeat split; eauto.
Qed.

Lemma field_or_data arg o r o1 :
  field_or arg (DataConfig__init__ DataConfig_no_args) o = (r, o1) ->
  os_frame o o1.
Proof.
  destruct arg; simpl.
  - intros H. inversion H; subst. apply os_frame_refl.
  - intros H. apply DataConfig__init__inv in H as [(He & Hc & _ & Hv) _].
    repeat split; eauto.
Qed.

Ltac bind_step H x o1 E :=
  apply bind_inv in H as [(? & _ & ->)|(x & o1 & E & H)];
  [left; eauto|cbv beta in H].

(** [__init__] either raises while the fields are computed, or reaches
    [__post_init__] with the fields as [prepared] describes. *)
Lemma Settings__init__inv a o r o' :
  Settings__init__ int_of_str a o = (r, o') ->
  (exists e, r = inl e) \/
  (exists s0 o1, prepared int_of_str a o s0 o1 /\ Settings__post_init__ s0 o1 = (r, o')).
Proof.
  unfold Settings__init__, getenv_default, getenv. intros H.
  bind_step H f_env o1 E1. rewrite field_or_gets in E1. inversion E1; subst o1; clear E1.
  bind_step H f_debug o2 E2. rewrite field_or_gets_map in E2.
  inversion E2; subst o2; clear E2.
  bind_step H f_log o3 E3. rewrite field_or_gets in E3. inversion E3; subst o3; clear E3.
  bind_step H f_tok o4 E4. rewrite field_or_gets in E4. inversion E4; subst o4; clear E4.
  bind_step H f_home o5 E5.
  apply (field_or_hf_home (a_hf_home a) o) in E5 as [-> Hhome].
  bind_step H f_model o6 E6. apply field_or_model in E6 as ->.
  bind_step H f_train o7 E7. apply field_or_training in E7.
  bind_step H f_data o8 E8. apply field_or_data in E8.
  pose proof (os_frame_trans _ _ _ E7 E8) as (He & Hc & Hev).
  bind_step H f_host o9 E9. rewrite field_or_gets in E9. inversion E9; subst o9; clear E9.
  bind_step H f_port o10 E10.
  apply (field_or_int (a_api_port a) "API_PORT" "8000") in E10 as [-> Hport].
  bind_step H f_work o11 E11.
  apply (field_or_int (a_num_workers a) "NUM_WORKERS" "4") in E11 as [-> Hwork].
  right. eexists _, o8. split; [|exact H].
  constructor; simpl.
  - exact He.
  - exact Hc.
  - exact Hev.
  - subst f_debug. reflexivity.
  - subst f_tok. reflexivity.
  - specialize (Hhome f_home eq_refl). destruct (a_hf_home a); exact Hhome.
  - intros Ha. rewrite <- He. apply Hport; [reflexivity|exact Ha].
  - intros Ha. rewrite <- He. apply Hwork; [reflexivity|exact Ha].
Qed.

(** What [__post_init__] does when it returns. *)
Lemma Settings__post_init__inv s0 o1 s o' :
  Settings__post_init__ s0 o1 = (inr s, o') ->
  let p := Path_of (hf_home s0) in
  s = set_hf_home (PPath p) s0 /\
  is_dir o' p = true /\
  environ o' !! "HF_HOME" = Some (str p) /\
  (if token_truthy (hf_token s0)
   then environ o' !! "HF_TOKEN" = hf_token s0
   else environ o' !! "HF_TOKEN" = environ o1 !! "HF_TOKEN") /\
  events o' =
    (events o1 ++ [EMkdir p; EPutenv "HF_HOME" (str p)]
       ++ token_writes (hf_token s0))%list.
Proof.
  unfold Settings__post_init__. intros H. cbv zeta in *.
  set (p := Path_of (hf_home s0)) in *.
  apply bind_inv in H as [(? & _ & ?)|([] & o2 & Hmk & H)]; [discriminate|].
  cbv beta in H.
  apply bind_inv in H as [(? & _ & ?)|([] & o3 & Hhome & H)]; [discriminate|].
  cbv beta in H.
  apply bind_inv in H as [(? & _ & ?)|([] & o4 & Htok & H)]; [discriminate|].
  cbv beta in H. inversion H; subst s o4; clear H.
  pose proof (mkdir_parents_is_dir _ _ _ Hmk) as Hdir.
  apply mkdir_parents_frame in Hmk as (He2 & Hc2 & _ & Hv2).
  apply putenv_ok in Hhome as (He3 & Hn3 & Hc3 & Hv3).
  assert (Hd3 : is_dir o3 p = true)
    by (rewrite (is_dir_ext o2 o3) by assumption; exact Hdir).
  assert (H3 : environ o3 !! "HF_HOME" = Some (str p))
    by (rewrite He3; apply lookup_insert_eq).
  assert (H3t : environ o3 !! "HF_TOKEN" = environ o1 !! "HF_TOKEN")
    by (rewrite He3, lookup_insert_ne by discriminate; rewrite He2; reflexivity).
  assert (Hv : events o3 = (events o1 ++ [EMkdir p; EPutenv "HF_HOME" (str p)])%list)
    by (rewrite Hv3, Hv2, <- app_assoc; reflexivity).
  split; [reflexivity|].
  destruct (hf_token s0) as [t|] eqn:Ht; simpl token_truthy; simpl token_writes.
  - destruct (truthy t) eqn:Htt.
    + apply putenv_ok in Htok as (He4 & Hn4 & Hc4 & Hv4).
      rewrite (is_dir_ext o3 o') by assumption.
      rewrite He4, lookup_insert_ne by discriminate.
      rewrite lookup_insert_eq, Hv4, Hv, <- app_assoc. auto.
    + inversion Htok; subst o'. rewrite app_nil_r. auto.
  - inversion Htok; subst o'. rewrite app_nil_r. auto.
Qed.

(** A construction that returns went through both stages. *)
Lemma Settings__init__ok a o s o' :
  Settings__init__ int_of_str a o = (inr s, o') ->
  exists s0 o1,
    prepared int_of_str a o s0 o1 /\
    Settings__post_init__ s0 o1 = (inr s, o') /\
    s = set_hf_home (PPath (Path_of (hf_home s0))) s0.
Proof.
  intros H. apply Settings__init__inv in H as [(e & E)|(s0 & o1 & P & H)];
    [discriminate|].
  exists s0, o1. split; [exact P|]. split; [exact H|].
  apply Settings__post_init__inv in H. apply H.
Qed.

End Parsing.

End SettingsFacts.


(** ** Reading [DEBUG] *)

Module TextFacts.
Import Text.

Ltac by_bits c := destruct c as [[] [] [] [] [] [] [] []]; reflexivity.

Lemma lower_is_t c : Ascii.eqb (lower_ascii c) "t" = same_letter c "t".
Proof. by_bits c. Qed.

Lemma lower_is_r c : Ascii.eqb (lower_ascii c) "r" = same_letter c "r".
Proof. by_bits c. Qed.

Lemma lower_is_u c : Ascii.eqb (lower_ascii c) "u" = same_letter c "u".
Proof. by_bits c. Qed.

Lemma lower_is_e c : Ascii.eqb (lower_ascii c) "e" = same_letter c "e".
Proof. by_bits c. Qed.

(** Comparing the lowered text with ["true"] is comparing the text with
    ["true"] up to case. *)
Lemma lower_eq_true v : String.eqb (lower v) "true" = ci_equal v "true".
Proof.
  destruct v as [|c1 [|c2 [|c3 [|c4 [|c5 v]]]]]; try reflexivity;
    cbn [lower String.eqb ci_equal];
    rewrite ?lower_is_t, ?lower_is_r, ?lower_is_u, ?lower_is_e;
    repeat (destruct (same_letter _ _); try reflexivity).
Qed.

End TextFacts.

(** ** The singleton *)

Module ProviderFacts.
Import Text Pathlib Sys Config Provider ConfigFacts.

Section Parsing.

Variable int_of_str : string -> option Z.

Local Abbreviation get := (get_settings int_of_str).
Local Abbreviation init := (Settings__init__ int_of_str Settings_no_args).

(** With the global set and no reload asked for, nothing happens. *)
Lemma get_settings_stored s l :
  _settings s = Some l -> get false s = (inr (Some l), s).
Proof.
  intros H. unfold get_settings, bind, gets. rewrite H. simpl.
  rewrite H. reflexivity.
Qed.

(** Otherwise [Settings()] is built: when that raises, only the
    operating-system side has moved; when it returns, the new object is
    at the end of the heap and in the global. *)
Lemma get_settings_builds r s :
  _settings s = None \/ r = true ->
  match init (os s) with
  | (inl e, o') => get r s = (inl e, mkProc o' (heap s) (_settings s))
  | (inr v, o') =>
      get r s = (inr (Some (length (heap s))),
                 mkProc o' (heap s ++ [v])%list (Some (length (heap s))))
  end.
Proof.
  intros H.
  assert (Hc : (bool_decide (_settings s = None) || r)%bool = true).
  { destruct H as [H| ->]; [|apply orb_true_r].
    rewrite bool_decide_eq_true_2 by exact H. reflexivity. }
  unfold get_settings, Settings_new, lift_os, alloc, set__settings, modify, bind, gets.
  rewrite Hc. destruct (init (os s)) as [[e|v] o']; reflexivity.
Qed.

Lemma get_settings_cases r s x s' :
  get r s = (x, s') ->
  (r = false /\ exists l, _settings s = Some l /\ x = inr (Some l) /\ s' = s) \/
  ((_settings s = None \/ r = true) /\
   ((exists e o', x = inl e /\ s' = mkProc o' (heap s) (_settings s)) \/
    (exists v o', x = inr (Some (length (heap s))) /\
       s' = mkProc o' (heap s ++ [v])%list (Some (length (heap s)))))).
Proof.
  intros H. destruct r.
  - right. split; [auto|].
    pose proof (get_settings_builds true s (or_intror eq_refl)) as B.
    destruct (init (os s)) as [[e|v] o']; rewrite B in H; inversion H; subst;
      [left|right]; eauto.
  - destruct (_settings s) as [l|] eqn:Hs.
    + left. rewrite (get_settings_stored s l Hs) in H. inversion H; subst. eauto.
    + right. split; [auto|].
      pose proof (get_settings_builds false s (or_introl Hs)) as B.
      destruct (init (os s)) as [[e|v] o']; rewrite B in H; inversion H; subst;
        [left|right]; rewrite ?Hs; eauto.
Qed.

(** A run without reload, started with the global set, returns that
    object at every call and leaves the global alone. *)
Lemma run_noreload_stored acts : forall s l outs s',
  forallb is_call_noreload acts = true ->
  _settings s = Some l ->
  run int_of_str acts s = (outs, s') ->
  Forall (fun y => y = inr (Some l)) outs /\ _settings s' = Some l.
Proof.
  induction acts as [|[r|o objs] rest IH]; intros s l outs s' Hall Hs H; simpl in *.
  - inversion H; subst. auto.
  - apply andb_true_iff in Hall as [Hr Hall].
    destruct r; [discriminate|].
    rewrite (get_settings_stored s l Hs) in H.
    destruct (run int_of_str rest s) as [xs s2] eqn:R.
    inversion H; subst.
    destruct (IH _ _ _ _ Hall Hs R) as [HF Hs']. auto.
  - eapply IH; [exact Hall| |exact H]. exact Hs.
Qed.

(** Every object a run hands out lies in the heap the run ends with, the
    heap only grows, and the global keeps referring into it. *)
Lemma run_bounds acts : forall s outs s',
  slot_ok s ->
  run int_of_str acts s = (outs, s') ->
  slot_ok s' /\ (length (heap s) <= length (heap s'))%nat /\
  forall l, inr (Some l) ∈ outs -> (l < length (heap s'))%nat.
Proof.
  induction acts as [|[r|o objs] rest IH]; intros s outs s' Hok H; simpl in H.
  - inversion H; subst. repeat split; [exact Hok|lia|].
    intros l Hl. inversion Hl.
  - destruct (get r s) as [x s1] eqn:G.
    destruct (run int_of_str rest s1) as [xs s2] eqn:R.
    inversion H; subst. clear H.
    apply get_settings_cases in G.
    assert (Hok1 : slot_ok s1 /\ (length (heap s) <= length (heap s1))%nat /\
                   forall l, x = inr (Some l) -> (l < length (heap s1))%nat).
    { unfold slot_ok in *.
      destruct G as [(_ & l & Hs & -> & ->)|(_ & [(e & o' & -> & ->)|(v & o' & -> & ->)])];
        simpl.
      - rewrite Hs in Hok |- *. repeat split; [exact Hok|lia|].
        intros l0 E. inversion E; subst. exact Hok.
      - repeat split; [exact Hok|lia|]. discriminate.
      - rewrite length_app. simpl. repeat split; [lia|lia|].
        intros l0 E. inversion E; subst. lia. }
    destruct Hok1 as (Hok1 & Hle1 & Hx).
    destruct (IH _ _ _ Hok1 R) as (Hok2 & Hle2 & Hxs).
    repeat split; [exact Hok2|lia|].
    intros l Hl. apply elem_of_cons in Hl as [E|Hl]; [|auto].
    symmetry in E. specialize (Hx l E). lia.
  - assert (Hok1 : slot_ok (mkProc o (heap s ++ objs)%list (_settings s))).
    { unfold slot_ok in *. simpl. destruct (_settings s); [|exact I].
      rewrite length_app. lia. }
    destruct (IH _ _ _ Hok1 H) as (Hok2 & Hle2 & Hxs).
    simpl in Hle2. rewrite length_app in Hle2.
    repeat split; [exact Hok2|lia|exact Hxs].
Qed.

End Parsing.

End ProviderFacts.

(** ** The statements of the specification *)

Module SettingsSpec.
Import Text Pathlib Sys Config Provider Examples.
Import PathFacts SysFacts ConfigFacts SettingsFacts TextFacts ProviderFacts.

(** C1, as the code has it: a [TrainingConfig] or a [DataConfig] built
    without a path override leaves its directory ([./outputs], [./data])
    on disk when construction returns, parents included; a [ModelConfig]
    built without [cache_dir] gets [cache_dir] set to
    [{home}/.cache/huggingface] and does not touch the file system or any
    other part of the state. *)
Theorem sub_config_directories (o : OS) :
  (forall a t o', a_output_dir a = None ->
     TrainingConfig__init__ a o = (inr t, o') ->
     output_dir t = PPath (Path_of_str "./outputs") /\
     is_dir o' (Path_of_str "./outputs") = true) /\
  (forall a d o', a_data_dir a = None ->
     DataConfig__init__ a o = (inr d, o') ->
     data_dir d = PPath (Path_of_str "./data") /\
     is_dir o' (Path_of_str "./data") = true) /\
  (forall a m o', a_cache_dir a = None ->
     ModelConfig__init__ a o = (inr m, o') ->
     o' = o /\
     exists h, Path_home o = (inr h, o) /\
               cache_dir m = Some (h // ".cache" // "huggingface")).
Proof.
  split; [|split].
  - intros a t o' Ha H.
    apply TrainingConfig__init__inv in H as [_ H].
    specialize (H t eq_refl). unfold training_dir in H. rewrite Ha in H. exact H.
  - intros a d o' Ha H.
    apply DataConfig__init__inv in H as [_ H].
    specialize (H d eq_refl). unfold data_dir_of in H. rewrite Ha in H. exact H.
  - intros a m o' Ha H.
    apply ModelConfig__init__inv in H as [-> H].
    specialize (H m eq_refl). rewrite Ha in H. auto.
Qed.

Lemma sub_config_directories_witness :
  (exists t o', TrainingConfig__init__ TrainingConfig_no_args ex_os = (inr t, o') /\
     is_dir o' (Path_of_str "./outputs") = true) /\
  (exists d o', DataConfig__init__ DataConfig_no_args ex_os = (inr d, o') /\
     is_dir o' (Path_of_str "./data") = true) /\
  (exists m, ModelConfig__init__ ModelConfig_no_args ex_os = (inr m, ex_os) /\
     cache_dir m = Some ex_cache).
Proof.
  destruct (sub_config_directories ex_os) as (HT & HD & HM).
  split; [|split].
  - eexists _, _. split; [vm_compute; reflexivity|].
    refine (proj2 (HT TrainingConfig_no_args _ _ eq_refl _)). vm_compute. reflexivity.
  - eexists _, _. split; [vm_compute; reflexivity|].
    refine (proj2 (HD DataConfig_no_args _ _ eq_refl _)). vm_compute. reflexivity.
  - eexists. split; [vm_compute; reflexivity|].
    destruct (HM ModelConfig_no_args _ ex_os eq_refl ltac:(vm_compute; reflexivity))
      as (_ & h & Hh & Hc).
    vm_compute in Hh. inversion Hh; subst h. reflexivity.
Defined.

(** C1 as stated fails for [ModelConfig]: on a machine where
    [/home/u/.cache/huggingface] does not exist, [ModelConfig()] returns
    with [cache_dir] naming that path and the path is still not a
    directory. *)
Lemma model_config_creates_nothing :
  exists m, ModelConfig__init__ ModelConfig_no_args ex_os = (inr m, ex_os) /\
            cache_dir m = Some ex_cache /\
            is_dir ex_os ex_cache = false.
Proof. eexists. vm_compute. repeat split. Qed.

Section Parsing.

Variable int_of_str : string -> option Z.

(** C2: in a sequence of [get_settings()] calls without reload, started
    with the global unset, a first call that returns has built a new
    object, the value [Settings()] returns, at a position that held no
    object before, and has stored it in the global; every later call
    returns that same object, whatever happens to the environment in
    between, and the object is still there at the end. *)
Theorem get_settings_same_instance (rest : list Action) (s s' : Proc)
    (x : option nat) (xs : list (Exn + option nat)) :
  forallb is_call_noreload rest = true ->
  _settings s = None ->
  run int_of_str (Call false :: rest) s = (inr x :: xs, s') ->
  x = Some (length (heap s)) /\
  heap s !! length (heap s) = None /\
  (exists v o',
     Settings__init__ int_of_str Settings_no_args (os s) = (inr v, o') /\
     heap (snd (get_settings int_of_str false s)) !! length (heap s) = Some v) /\
  _settings (snd (get_settings int_of_str false s)) = x /\
  Forall (fun y => y = inr x) xs /\
  _settings s' = x /\
  is_Some (heap s' !! length (heap s)).
Proof.
  intros Hall Hs H. simpl in H.
  pose proof (get_settings_builds int_of_str false s (or_introl Hs)) as B.
  destruct (get_settings int_of_str false s) as [x1 s1] eqn:G.
  destruct (run int_of_str rest s1) as [xs1 s2] eqn:R.
  inversion H; subst. clear H.
  destruct (Settings__init__ int_of_str Settings_no_args (os s)) as [[e|v] o'] eqn:E;
    [discriminate|].
  inversion B; subst x s1. clear B. simpl.
  assert (Hok : slot_ok (mkProc o' (heap s ++ [v])%list (Some (length (heap s))))).
  { unfold slot_ok. simpl. rewrite length_app. simpl. lia. }
  destruct (run_bounds int_of_str rest _ _ _ Hok R) as (_ & Hle & _).
  simpl in Hle. rewrite length_app in Hle. simpl in Hle.
  eapply (run_noreload_stored int_of_str rest _ (length (heap s))) in R as [HF Hs'];
    [|exact Hall|reflexivity].
  split; [reflexivity|]. split; [apply lookup_ge_None; lia|].
  split.
  { exists v, o'. split; [reflexivity|].
    rewrite lookup_app_r by lia. rewrite Nat.sub_diag. reflexivity. }
  split; [reflexivity|]. split; [exact HF|]. split; [exact Hs'|].
  apply lookup_lt_is_Some_2. lia.
Qed.

(** C5: when [get_settings] raises, the global holds what it held before
    the call, and no object has been added. *)
Theorem failed_get_keeps_slot (r : bool) (s s' : Proc) (e : Exn) :
  get_settings int_of_str r s = (inl e, s') ->
  _settings s' = _settings s /\ heap s' = heap s.
Proof.
  intros H.
  apply get_settings_cases in H
    as [(_ & l & _ & E & _)|(_ & [(e' & o' & _ & ->)|(v & o' & E & _)])];
    [discriminate|auto|discriminate].
Qed.

(** C7: a [get_settings(reload=True)] that returns hands out an object
    that no earlier call returned and that did not exist before the call;
    the global refers to it afterwards and no longer to the previous
    object. *)
Theorem reload_returns_new_instance (acts : list Action) (s s1 s2 : Proc)
    (outs : list (Exn + option nat)) (x : option nat) :
  slot_ok s ->
  run int_of_str acts s = (outs, s1) ->
  get_settings int_of_str true s1 = (inr x, s2) ->
  exists l, x = Some l /\
    (inr (Some l) ∉ outs) /\
    heap s1 !! l = None /\
    is_Some (heap s2 !! l) /\
    _settings s1 <> Some l /\
    _settings s2 = Some l.
Proof.
  intros Hok R G.
  destruct (run_bounds int_of_str acts s outs s1 Hok R) as (Hok1 & _ & Hout).
  apply get_settings_cases in G
    as [(E & _)|(_ & [(e & o' & E & _)|(v & o' & E & ->)])];
    [discriminate|discriminate|].
  inversion E; subst. exists (length (heap s1)). simpl.
  repeat split.
  - intros Hin. specialize (Hout _ Hin). lia.
  - apply lookup_ge_None. lia.
  - rewrite lookup_app_r by lia. rewrite Nat.sub_diag. simpl. eauto.
  - intros Hs. unfold slot_ok in Hok1. rewrite Hs in Hok1. lia.
Qed.

(** C9: [load_settings_from_env()] is [get_settings(reload=True)], and
    both are the reload operation of the specification: build, store,
    return, from every state. *)
Theorem load_settings_from_env_is_reload (s : Proc) :
  load_settings_from_env int_of_str s = get_settings int_of_str true s /\
  load_settings_from_env int_of_str s = reload_spec int_of_str s.
Proof.
  split; [reflexivity|].
  unfold load_settings_from_env, reload_spec.
  pose proof (get_settings_builds int_of_str true s (or_intror eq_refl)) as B.
  unfold Settings_new, lift_os, alloc, set__settings, modify, bind, ret.
  destruct (Settings__init__ int_of_str Settings_no_args (os s)) as [[e|v] o'];
    rewrite B; reflexivity.
Qed.

(** C3, as the code has it: after [Settings(...)] returns, with fields
    taken from the environment or passed explicitly, [hub_home] is a
    directory, [HF_HOME] maps to its text, and a token that is present
    and not empty is what [HF_TOKEN] maps to; the last calls made are
    the creation of [hub_home], the write of [HF_HOME] and, for such a
    token, the write of [HF_TOKEN], in that order. *)
Theorem post_init_exports_environment (a : SettingsArgs) (o o' : OS) (s : Settings) :
  Settings__init__ int_of_str a o = (inr s, o') ->
  exists p pre,
    hf_home s = PPath p /\
    is_dir o' p = true /\
    environ o' !! "HF_HOME" = Some (str p) /\
    (forall t, hf_token s = Some t -> t <> "" -> environ o' !! "HF_TOKEN" = Some t) /\
    events o' =
      (events o ++ pre ++ [EMkdir p; EPutenv "HF_HOME" (str p)]
         ++ token_writes (hf_token s))%list.
Proof.
  intros H. apply Settings__init__ok in H as (s0 & o1 & P & H & ->).
  apply Settings__post_init__inv in H as (_ & Hd & Hh & Ht & Hv).
  destruct (prep_events _ _ _ _ _ P) as [pre Hpre].
  exists (Path_of (hf_home s0)), pre. simpl.
  repeat split; try assumption.
  - intros t Ht0 Hne. rewrite Ht0 in Ht. simpl in Ht.
    destruct t; [congruence|exact Ht].
  - rewrite Hv, Hpre, <- app_assoc. reflexivity.
Qed.

(** C4: with [API_PORT] set to text that [int] rejects and no explicit
    [api_port], [Settings(...)] raises; the same with [NUM_WORKERS] and
    [num_workers]. *)
Theorem non_integer_text_fails (a : SettingsArgs) (o : OS) (k v : string) :
  (k = "API_PORT" /\ a_api_port a = None) \/
  (k = "NUM_WORKERS" /\ a_num_workers a = None) ->
  environ o !! k = Some v ->
  int_of_str v = None ->
  exists e o', Settings__init__ int_of_str a o = (inl e, o').
Proof.
  intros Hk Hv Hi.
  destruct (Settings__init__ int_of_str a o) as [r o'] eqn:E.
  apply Settings__init__inv in E as [(e & ->)|(s0 & o1 & P & _)]; [eauto|].
  exfalso. destruct Hk as [[-> Ha]|[-> Ha]].
  - pose proof (prep_api_port _ _ _ _ _ P Ha) as Hp.
    rewrite Hv in Hp. simpl in Hp. congruence.
  - pose proof (prep_num_workers _ _ _ _ _ P Ha) as Hp.
    rewrite Hv in Hp. simpl in Hp. congruence.
Qed.

(** C6: when [debug] is not passed explicitly, the constructed settings
    have [debug] true exactly when [DEBUG] is set and its text is
    ["true"] up to letter case. *)
Theorem debug_iff_true_ignoring_case (a : SettingsArgs) (o o' : OS) (s : Settings) :
  a_debug a = None ->
  Settings__init__ int_of_str a o = (inr s, o') ->
  debug s = true <->
  exists v, environ o !! "DEBUG" = Some v /\ ci_equal v "true" = true.
Proof.
  intros Ha H. apply Settings__init__ok in H as (s0 & o1 & P & _ & ->).
  simpl. rewrite (prep_debug _ _ _ _ _ P), Ha. simpl.
  unfold debug_of_env. rewrite lower_eq_true.
  destruct (environ o !! "DEBUG") as [v|]; simpl.
  - split; [eauto|]. intros (v' & E & Hv). inversion E; subst. exact Hv.
  - split; [discriminate|]. intros (v' & E & _). discriminate.
Qed.

(** C8: with [HF_HOME] unset and no explicit [hf_home], the constructed
    settings have [hf_home] equal to [{home}/.cache/huggingface], and
    that directory exists when construction returns. *)
Theorem default_hub_home (a : SettingsArgs) (o o' : OS) (s : Settings) :
  a_hf_home a = None ->
  environ o !! "HF_HOME" = None ->
  Settings__init__ int_of_str a o = (inr s, o') ->
  exists h, Path_home o = (inr h, o) /\
    hf_home s = PPath (h // ".cache" // "huggingface") /\
    is_dir o' (h // ".cache" // "huggingface") = true.
Proof.
  intros Ha He H. apply Settings__init__ok in H as (s0 & o1 & P & H & ->).
  apply Settings__post_init__inv in H as (_ & Hd & _).
  pose proof (prep_hf_home _ _ _ _ _ P) as Hh. rewrite Ha, He in Hh.
  destruct Hh as (h & Hhome & Hh). exists h.
  simpl in Hh. unfold default_hf_home in Hh.
  rewrite Path_of_str_str in Hh
    by (do 2 apply truediv_wf; eapply Path_home_wf, Hhome).
  rewrite Hh in Hd |- *. simpl in Hd |- *. auto.
Qed.

(** C10: when the token of the constructed settings is the empty string,
    [HF_TOKEN] is after construction what it was before; [HF_TOKEN]
    changes only for a token that is present and not empty; [HF_HOME]
    is written in every case. *)
Theorem empty_token_not_exported (a : SettingsArgs) (o o' : OS) (s : Settings) :
  Settings__init__ int_of_str a o = (inr s, o') ->
  (hf_token s = Some "" -> environ o' !! "HF_TOKEN" = environ o !! "HF_TOKEN") /\
  (environ o' !! "HF_TOKEN" <> environ o !! "HF_TOKEN" ->
     exists t, hf_token s = Some t /\ t <> "") /\
  (exists p, hf_home s = PPath p /\ environ o' !! "HF_HOME" = Some (str p)).
Proof.
  intros H. apply Settings__init__ok in H as (s0 & o1 & P & H & ->).
  apply Settings__post_init__inv in H as (_ & _ & Hh & Ht & _).
  rewrite (prep_environ _ _ _ _ _ P) in Ht. simpl.
  split; [|split].
  - intros E. rewrite E in Ht. exact Ht.
  - intros Hne. destruct (hf_token s0) as [[|c t]|]; simpl in Ht;
      [contradiction|eauto|contradiction].
  - eauto.
Qed.

End Parsing.

Local Abbreviation ascii_int := AsciiInt.int_of_str.
Local Abbreviation Settings_default o := (Settings__init__ ascii_int Settings_no_args o).

Lemma get_settings_same_instance_witness :
  Forall (fun y => y = inr (Some 0%nat))
    (tl (fst (run ascii_int (Call false :: ex_calls) (fresh_proc ex_os)))) /\
  _settings (snd (run ascii_int (Call false :: ex_calls) (fresh_proc ex_os))) = Some 0%nat.
Proof.
  pose proof (get_settings_same_instance ascii_int ex_calls (fresh_proc ex_os)
                (snd (run ascii_int (Call false :: ex_calls) (fresh_proc ex_os)))
                (Some 0%nat)
                (tl (fst (run ascii_int (Call false :: ex_calls) (fresh_proc ex_os))))
                eq_refl eq_refl ltac:(vm_compute; reflexivity))
    as (_ & _ & _ & _ & HF & HS & _).
  split; assumption.
Defined.

Lemma failed_get_keeps_slot_witness :
  _settings (snd (get_settings ascii_int true ex_initialized_bad_port)) = Some 0%nat.
Proof.
  refine (proj1 (failed_get_keeps_slot ascii_int true ex_initialized_bad_port
                   (snd (get_settings ascii_int true ex_initialized_bad_port)) ValueError _)).
  vm_compute. reflexivity.
Defined.

Lemma reload_returns_new_instance_witness :
  inr (Some 1%nat) ∉ fst (run ascii_int (Call false :: ex_calls) (fresh_proc ex_os)).
Proof.
  destruct (reload_returns_new_instance ascii_int (Call false :: ex_calls) (fresh_proc ex_os)
              (snd (run ascii_int (Call false :: ex_calls) (fresh_proc ex_os)))
              (snd (get_settings ascii_int true
                      (snd (run ascii_int (Call false :: ex_calls) (fresh_proc ex_os)))))
              (fst (run ascii_int (Call false :: ex_calls) (fresh_proc ex_os)))
              (Some 1%nat) Logic.I
              ltac:(vm_compute; reflexivity) ltac:(vm_compute; reflexivity))
    as (l & E & Hni & _).
  inversion E; subst l. exact Hni.
Defined.

Lemma post_init_exports_environment_witness :
  environ (snd (Settings_default ex_token)) !! "HF_TOKEN" = Some "abc123" /\
  environ (snd (Settings_default ex_token)) !! "HF_HOME"
    = Some "/home/u/.cache/huggingface".
Proof.
  destruct (post_init_exports_environment ascii_int Settings_no_args ex_token
              (snd (Settings_default ex_token)) (ex_settings false (Some "abc123"))
              ltac:(vm_compute; reflexivity))
    as (p & pre & Hp & _ & Hh & Ht & _).
  inversion Hp; subst p. split.
  - apply Ht; [reflexivity|discriminate].
  - exact Hh.
Defined.

(** C3 as stated fails for an empty token: [Settings(hf_token="")] on a
    machine without [HF_TOKEN] returns settings whose token is [""], and
    [HF_TOKEN] is still unset. *)
Lemma empty_token_is_not_written :
  ~ (forall a o s o', Settings__init__ ascii_int a o = (inr s, o') ->
       forall t, hf_token s = Some t -> environ o' !! "HF_TOKEN" = Some t).
Proof.
  intros H.
  specialize (H ex_empty_token_args ex_os (ex_settings false (Some ""))
                (snd (Settings__init__ ascii_int ex_empty_token_args ex_os))
                ltac:(vm_compute; reflexivity) "" eq_refl).
  vm_compute in H. discriminate.
Qed.

Lemma non_integer_text_fails_witness :
  exists e o', Settings_default ex_bad_port = (inl e, o').
Proof.
  refine (non_integer_text_fails ascii_int Settings_no_args ex_bad_port
            "API_PORT" "not-a-number" (or_introl (conj eq_refl eq_refl)) _ eq_refl).
  vm_compute. reflexivity.
Defined.

Lemma debug_iff_true_ignoring_case_witness :
  debug (ex_settings true None) = true <->
  exists v, environ ex_debug !! "DEBUG" = Some v /\ ci_equal v "true" = true.
Proof.
  refine (debug_iff_true_ignoring_case ascii_int Settings_no_args ex_debug
            (snd (Settings_default ex_debug)) (ex_settings true None) eq_refl _).
  vm_compute. reflexivity.
Defined.

Lemma default_hub_home_witness :
  hf_home (ex_settings false None) = PPath ex_cache /\
  is_dir (snd (Settings_default ex_os)) ex_cache = true.
Proof.
  destruct (default_hub_home ascii_int Settings_no_args ex_os
              (snd (Settings_default ex_os)) (ex_settings false None)
              eq_refl ltac:(vm_compute; reflexivity) ltac:(vm_compute; reflexivity))
    as (h & Hh & Hp & Hd).
  vm_compute in Hh. inversion Hh; subst h. split; [reflexivity|exact Hd].
Defined.

Lemma empty_token_not_exported_witness :
  environ (snd (Settings__init__ ascii_int ex_empty_token_args ex_token)) !! "HF_TOKEN"
  = Some "abc123".
Proof.
  refine (proj1 (empty_token_not_exported ascii_int ex_empty_token_args ex_token
                   (snd (Settings__init__ ascii_int ex_empty_token_args ex_token))
                   (ex_settings false (Some "")) _) eq_refl).
  vm_compute. reflexivity.
Defined.

End SettingsSpec.

(** ** More on the file system: directories persist, [mkdir] on an
    existing directory changes nothing *)

Module FsFacts.
Import Text Pathlib Sys SysFacts.

Lemma resolve_mono n n' comps : forall cur x,
  (forall p, is_dir_at n p = true -> is_dir_at n' p = true) ->
  resolve n cur comps = Some x -> resolve n' cur comps = Some x.
Proof.
  induction comps as [|c rest IH]; intros cur x Hm H; simpl in *; [exact H|].
  destruct (is_dir_at n (if String.eqb c ".." then removelast cur else cur ++ [c])%list)
    eqn:Hd; [|discriminate].
  rewrite (Hm _ Hd). apply IH; assumption.
Qed.

Lemma mkdir_parents_nodes_mono p o r o' :
  mkdir_parents p o = (r, o') ->
  forall q, is_dir_at (nodes o) q = true -> is_dir_at (nodes o') q = true.
Proof.
  unfold mkdir_parents. intros H q Hq.
  destruct (existsb (has_char nul) (parts p)); [inversion H; subst; exact Hq|].
  destruct (is_dir_at (nodes o) (start_of o p)); [|inversion H; subst; exact Hq].
  destruct (mkdir_walk _ _ _ _) as [r1 n1] eqn:W. inversion H; subst. simpl.
  eapply mkdir_walk_mono; eauto.
Qed.

(** A directory that exists still exists after any [mkdir]. *)
Lemma mkdir_parents_keeps_dirs p o r o' q :
  mkdir_parents p o = (r, o') -> is_dir o q = true -> is_dir o' q = true.
Proof.
  intros H Hq.
  pose proof (mkdir_parents_nodes_mono _ _ _ _ H) as Hm.
  apply mkdir_parents_frame in H as (_ & Hc & _).
  unfold is_dir, start_of in *. rewrite Hc.
  apply andb_true_iff in Hq as [Hs Hr]. apply bool_decide_eq_true in Hr as [x Hx].
  rewrite (Hm _ Hs). simpl. apply bool_decide_eq_true.
  exists x. eapply resolve_mono; eauto.
Qed.

Lemma mkdir_walk_noop den comps : forall cur n,
  is_Some (resolve n cur comps) -> mkdir_walk den cur comps n = (inr tt, n).
Proof.
  induction comps as [|c rest IH]; intros cur n [x H]; simpl in *; [reflexivity|].
  destruct (String.eqb c "..").
  - destruct (is_dir_at n (removelast cur)); [|discriminate]. apply IH. eauto.
  - unfold is_dir_at in H.
    destruct (node_at n (cur ++ [c])) as [[|]|]; try discriminate. apply IH. eauto.
Qed.

Lemma mkdir_parents_noop p o :
  is_dir o p = true ->
  existsb (has_char nul) (parts p) = false ->
  mkdir_parents p o = (inr tt, log (EMkdir p) o).
Proof.
  unfold is_dir, mkdir_parents. intros H Hn. rewrite Hn.
  apply andb_true_iff in H as [Hs Hr]. apply bool_decide_eq_true in Hr.
  rewrite Hs, (mkdir_walk_noop _ _ _ _ Hr). reflexivity.
Qed.

Lemma mkdir_parents_no_nul p o o' :
  mkdir_parents p o = (inr tt, o') -> existsb (has_char nul) (parts p) = false.
Proof.
  unfold mkdir_parents. destruct (existsb (has_char nul) (parts p)); [discriminate|auto].
Qed.

Lemma mkdir_parents_denied p o r o' :
  mkdir_parents p o = (r, o') -> denied o' = denied o.
Proof.
  unfold mkdir_parents. intros H.
  destruct (existsb (has_char nul) (parts p)); [inversion H; subst; auto|].
  destruct (is_dir_at (nodes o) (start_of o p)); [|inversion H; subst; auto].
  destruct (mkdir_walk _ _ _ _) as [r1 n1]. inversion H; subst; auto.
Qed.

Lemma putenv_frame k v o r o' :
  putenv k v o = (r, o') ->
  nodes o' = nodes o /\ cwd o' = cwd o /\ pw_dir o' = pw_dir o /\
  denied o' = denied o /\
  (forall k', k' <> k -> environ o' !! k' = environ o !! k') /\
  (forall e, r = inl e -> environ o' = environ o).
Proof.
  unfold putenv. destruct (has_char nul v); intros H; inversion H; subst; simpl;
    repeat split; try reflexivity; try discriminate.
  intros k' Hk. apply lookup_insert_ne. congruence.
Qed.

Lemma putenv_same k v o :
  environ o !! k = Some v ->
  has_char nul v = false ->
  putenv k v o = (inr tt, log (EPutenv k v) o).
Proof.
  intros H Hn. unfold putenv. rewrite Hn. unfold set_environ, log. simpl.
  rewrite insert_id by exact H. reflexivity.
Qed.

Lemma putenv_no_nul k v o o' :
  putenv k v o = (inr tt, o') -> has_char nul v = false.
Proof. unfold putenv. destruct (has_char nul v); [discriminate|auto]. Qed.

(** [Path.home()] depends on [HOME] and on the password database only. *)
Lemma Path_home_same o o1 :
  environ o1 !! "HOME" = environ o !! "HOME" ->
  pw_dir o1 = pw_dir o ->
  fst (Path_home o1) = fst (Path_home o).
Proof.
  intros He Hp. unfold Path_home, expanduser_home. rewrite He, Hp.
  destruct (starts_with_tilde _); reflexivity.
Qed.

End FsFacts.

(** ** [Settings.__init__] stage by stage *)

Module StageFacts.
Import Text Pathlib Sys Config Stages.
Import PathFacts SysFacts FsFacts ConfigFacts.

Lemma grows_refl o : grows o o.
Proof. repeat split; auto. Qed.

Lemma grows_trans o o1 o2 : grows o o1 -> grows o1 o2 -> grows o o2.
Proof.
  intros (He & Hc & Hp & Hd & Hq) (He' & Hc' & Hp' & Hd' & Hq').
  repeat split; try congruence. auto.
Qed.

Lemma mkdir_parents_grows p o r o' : mkdir_parents p o = (r, o') -> grows o o'.
Proof.
  intros H. pose proof (mkdir_parents_frame _ _ _ _ H) as (He & Hc & Hp & _).
  repeat split; auto.
  - eapply mkdir_parents_denied, H.
  - intros q. eapply mkdir_parents_keeps_dirs, H.
Qed.

Lemma bind_ok {St A B} (m : M St A) (k : A -> M St B) s a s1 :
  m s = (inr a, s1) -> bind m k s = k a s1.
Proof. intros H. unfold bind. rewrite H. reflexivity. Qed.

Lemma field_or_some {A} (x : A) (m : M OS A) o : field_or (Some x) m o = (inr x, o).
Proof. reflexivity. Qed.

Lemma field_or_training_grows arg o r o1 :
  field_or arg (TrainingConfig__init__ TrainingConfig_no_args) o = (r, o1) -> grows o o1.
Proof.
  destruct arg; simpl.
  - intros H. inversion H; subst. apply grows_refl.
  - unfold TrainingConfig__init__, TrainingConfig__post_init__. intros H.
    apply bind_inv in H as [(e & H & _)|([] & o2 & Hm & H)].
    + eapply mkdir_parents_grows, H.
    + inversion H; subst. eapply mkdir_parents_grows, Hm.
Qed.

Lemma field_or_data_grows arg o r o1 :
  field_or arg (DataConfig__init__ DataConfig_no_args) o = (r, o1) -> grows o o1.
Proof.
  destruct arg; simpl.
  - intros H. inversion H; subst. apply grows_refl.
  - unfold DataConfig__init__, DataConfig__post_init__. intros H.
    apply bind_inv in H as [(e & H & _)|([] & o2 & Hm & H)].
    + eapply mkdir_parents_grows, H.
    + inversion H; subst. eapply mkdir_parents_grows, Hm.
Qed.

Lemma field_or_hf_home_state arg o r o1 :
  field_or arg hf_home_factory o = (r, o1) -> o1 = o.
Proof.
  destruct arg; simpl.
  - intros H. inversion H; reflexivity.
  - unfold hf_home_factory. intros H.
    apply bind_inv in H as [(e & H & _)|(h & o2 & Hh & H)].
    + eapply Path_home_ok, H.
    + apply Path_home_ok in Hh as ->. inversion H; reflexivity.
Qed.

Lemma field_or_model_state arg o r o1 :
  field_or arg (ModelConfig__init__ ModelConfig_no_args) o = (r, o1) -> o1 = o.
Proof.
  destruct arg; simpl.
  - intros H. inversion H; reflexivity.
  - intros H. eapply ModelConfig__init__inv, H.
Qed.

Section Parsing.

Variable int_of_str : string -> option Z.

Lemma field_or_int_state arg k d o r o1 :
  field_or arg (int_factory int_of_str k d) o = (r, o1) -> o1 = o.
Proof.
  destruct arg; simpl.
  - intros H. inversion H; reflexivity.
  - unfold int_factory, bind, getenv_default, gets, py_int.
    destruct (int_of_str _); intros H; inversion H; reflexivity.
Qed.

Ltac stage H x o1 E :=
  apply bind_inv in H as [(? & E & ->)|(x & o1 & E & H)]; [left|cbv beta in H].

(** [__init__] either raises in one of its stages, having at most created
    directories, or reaches [__post_init__] with the object [assigned]. *)
Lemma Settings__init__stages a o r o' :
  Settings__init__ int_of_str a o = (r, o') ->
  (exists e, r = inl e /\ grows o o') \/
  (exists hh m t d zp zw o7 o8,
     staged int_of_str a o hh m t d zp zw o7 o8 /\ grows o o8 /\
     Settings__post_init__ (assigned a o hh m t d zp zw) o8 = (r, o')).
Proof.
  unfold Settings__init__, getenv_default, getenv. intros H.
  stage H f_env o1 E1; [rewrite field_or_gets in E1; discriminate|].
  rewrite field_or_gets in E1. inversion E1; subst o1 f_env; clear E1.
  stage H f_debug o2 E2; [rewrite field_or_gets_map in E2; discriminate|].
  rewrite field_or_gets_map in E2. inversion E2; subst o2 f_debug; clear E2.
  stage H f_log o3 E3; [rewrite field_or_gets in E3; discriminate|].
  rewrite field_or_gets in E3. inversion E3; subst o3 f_log; clear E3.
  stage H f_tok o4 E4; [rewrite field_or_gets in E4; discriminate|].
  rewrite field_or_gets in E4. inversion E4; subst o4 f_tok; clear E4.
  stage H hh o5 E5.
  { apply (field_or_hf_home_state (a_hf_home a)) in E5 as ->.
    eexists; split; [reflexivity|apply grows_refl]. }
  pose proof (field_or_hf_home_state (a_hf_home a) _ _ _ E5) as ->.
  stage H m o6 E6.
  { apply field_or_model_state in E6 as ->.
    eexists; split; [reflexivity|apply grows_refl]. }
  pose proof (field_or_model_state _ _ _ _ E6) as ->.
  stage H t o7 E7.
  { eexists; split; [reflexivity|eapply field_or_training_grows, E7]. }
  pose proof (field_or_training_grows _ _ _ _ E7) as G7.
  stage H d o8 E8.
  { eexists; split; [reflexivity|].
    eapply grows_trans; [exact G7|eapply field_or_data_grows, E8]. }
  pose proof (grows_trans _ _ _ G7 (field_or_data_grows _ _ _ _ E8)) as G8.
  stage H f_host o9 E9; [rewrite field_or_gets in E9; discriminate|].
  rewrite field_or_gets in E9. inversion E9; subst o9 f_host; clear E9.
  stage H zp o10 E10.
  { apply (field_or_int_state (a_api_port a) "API_PORT" "8000") in E10 as ->.
    eexists; split; [reflexivity|exact G8]. }
  pose proof (field_or_int_state (a_api_port a) "API_PORT" "8000" _ _ _ E10) as ->.
  stage H zw o11 E11.
  { apply (field_or_int_state (a_num_workers a) "NUM_WORKERS" "4") in E11 as ->.
    eexists; split; [reflexivity|exact G8]. }
  pose proof (field_or_int_state (a_num_workers a) "NUM_WORKERS" "4" _ _ _ E11) as ->.
  right. exists hh, m, t, d, zp, zw, o7, o8.
  split; [repeat split; assumption|]. split; [exact G8|].
  unfold assigned. destruct G8 as (He & _). rewrite He in H. exact H.
Qed.

(** Conversely, stages that ran without raising lead to [__post_init__]. *)
Lemma Settings__init__staged a o hh m t d zp zw o7 o8 :
  staged int_of_str a o hh m t d zp zw o7 o8 ->
  environ o8 = environ o ->
  Settings__init__ int_of_str a o
  = Settings__post_init__ (assigned a o hh m t d zp zw) o8.
Proof.
  intros (E5 & E6 & E7 & E8 & E10 & E11) He.
  unfold Settings__init__, getenv_default, getenv.
  rewrite (bind_ok _ _ _ _ _ (field_or_gets _ _ _)).
  rewrite (bind_ok _ _ _ _ _ (field_or_gets_map _ _ _ _)).
  rewrite (bind_ok _ _ _ _ _ (field_or_gets _ _ _)).
  rewrite (bind_ok _ _ _ _ _ (field_or_gets _ _ _)).
  rewrite (bind_ok _ _ _ _ _ E5), (bind_ok _ _ _ _ _ E6).
  rewrite (bind_ok _ _ _ _ _ E7), (bind_ok _ _ _ _ _ E8).
  rewrite (bind_ok _ _ _ _ _ (field_or_gets _ _ _)).
  rewrite (bind_ok _ _ _ _ _ E10), (bind_ok _ _ _ _ _ E11).
  unfold assigned. rewrite He. reflexivity.
Qed.

End Parsing.

End StageFacts.

(** ** What construction leaves alone *)

Module FrameFacts.
Import Text Pathlib Sys Config Stages.
Import PathFacts SysFacts FsFacts ConfigFacts StageFacts.

Lemma is_dir_same o o' q :
  nodes o' = nodes o -> cwd o' = cwd o -> is_dir o q = true -> is_dir o' q = true.
Proof. intros Hn Hc H. rewrite (is_dir_ext o o') by assumption. exact H. Qed.

Lemma exported_false k :
  exported k = false <-> k <> "HF_HOME" /\ k <> "HF_TOKEN".
Proof.
  unfold exported. rewrite orb_false_iff.
  split; intros [H1 H2]; split.
  - intros ->. discriminate.
  - intros ->. discriminate.
  - apply String.eqb_neq, H1.
  - apply String.eqb_neq, H2.
Qed.

(** [__post_init__], whether it returns or raises: directories persist,
    only [HF_HOME] and [HF_TOKEN] can change in the environment table, and
    [HF_TOKEN] changes only when the method returns. *)
Lemma Settings__post_init__frame s0 o1 r o' :
  Settings__post_init__ s0 o1 = (r, o') ->
  cwd o' = cwd o1 /\ pw_dir o' = pw_dir o1 /\ denied o' = denied o1 /\
  (forall q, is_dir o1 q = true -> is_dir o' q = true) /\
  (forall k, exported k = false -> environ o' !! k = environ o1 !! k) /\
  (forall e, r = inl e -> environ o' !! "HF_TOKEN" = environ o1 !! "HF_TOKEN").
Proof.
  unfold Settings__post_init__. intros H.
  apply bind_inv in H as [(e & H & ->)|([] & o2 & Hmk & H)].
  { destruct (mkdir_parents_grows _ _ _ _ H) as (He & Hc & Hp & Hd & Hq).
    rewrite He. repeat split; auto. }
  destruct (mkdir_parents_grows _ _ _ _ Hmk) as (He & Hc & Hp & Hd & Hq).
  cbv beta in H.
  apply bind_inv in H as [(e & H & ->)|([] & o3 & Hh & H)].
  { destruct (putenv_frame _ _ _ _ _ H) as (Hn3 & Hc3 & Hp3 & Hd3 & Hk3 & He3).
    rewrite (He3 e eq_refl), He.
    repeat split; try congruence.
    intros q Hq0. eapply is_dir_same; [exact Hn3|exact Hc3|auto]. }
  destruct (putenv_frame _ _ _ _ _ Hh) as (Hn3 & Hc3 & Hp3 & Hd3 & Hk3 & _).
  cbv beta in H.
  assert (Hframe3 : cwd o3 = cwd o1 /\ pw_dir o3 = pw_dir o1 /\ denied o3 = denied o1 /\
            (forall q, is_dir o1 q = true -> is_dir o3 q = true) /\
            (forall k, exported k = false -> environ o3 !! k = environ o1 !! k) /\
            environ o3 !! "HF_TOKEN" = environ o1 !! "HF_TOKEN").
  { repeat split; try congruence.
    - intros q Hq0. eapply is_dir_same; [exact Hn3|exact Hc3|auto].
    - intros k Hk. apply exported_false in Hk as [Hk1 _].
      rewrite (Hk3 k Hk1), He. reflexivity.
    - rewrite (Hk3 "HF_TOKEN") by discriminate. rewrite He. reflexivity. }
  destruct Hframe3 as (Hc' & Hp' & Hd' & Hq' & Hk' & Ht').
  assert (Hput : forall t rr oo, putenv "HF_TOKEN" t o3 = (rr, oo) ->
            cwd oo = cwd o1 /\ pw_dir oo = pw_dir o1 /\ denied oo = denied o1 /\
            (forall q, is_dir o1 q = true -> is_dir oo q = true) /\
            (forall k, exported k = false -> environ oo !! k = environ o1 !! k) /\
            (forall e, rr = inl e -> environ oo !! "HF_TOKEN" = environ o1 !! "HF_TOKEN")).
  { intros t rr oo Hp4.
    destruct (putenv_frame _ _ _ _ _ Hp4) as (Hn4 & Hc4 & Hp4' & Hd4 & Hk4 & He4).
    repeat split; try congruence.
    - intros q Hq0. eapply is_dir_same; [exact Hn4|exact Hc4|auto].
    - intros k Hk. pose proof Hk as Hk0. apply exported_false in Hk as [_ Hk2].
      rewrite (Hk4 k Hk2). auto.
    - intros e ->. rewrite (He4 e eq_refl). exact Ht'. }
  apply bind_inv in H as [(e & H & ->)|([] & o4 & Htok & H)].
  - destruct (hf_token s0) as [t|]; [|discriminate].
    destruct (truthy t); [|discriminate].
    destruct (Hput _ _ _ H) as (? & ? & ? & ? & ? & Hx).
    repeat split; auto. intros e' _. apply (Hx e eq_refl).
  - cbv beta in H. inversion H; subst r o4. clear H.
    destruct (hf_token s0) as [t|]; [destruct (truthy t)|].
    + destruct (Hput _ _ _ Htok) as (? & ? & ? & ? & ? & _).
      repeat split; auto; discriminate.
    + inversion Htok; subst o'. repeat split; auto; discriminate.
    + inversion Htok; subst o'. repeat split; auto; discriminate.
Qed.

End FrameFacts.

(** ** Further properties of the dataclasses *)

Module ConfigProps.
Import Text Pathlib Sys Config Stages.
Import PathFacts SysFacts FsFacts ConfigFacts SettingsFacts StageFacts FrameFacts.

(** X12. A path passed explicitly to [TrainingConfig] or [DataConfig], as
    text or as a [Path], is replaced by [Path] of it and that directory
    exists when construction returns; [ModelConfig] keeps an explicit
    [cache_dir] as passed and returns it without reading or changing
    anything. *)
Theorem explicit_paths_are_normalised (o : OS) :
  (forall a x t o', a_output_dir a = Some x ->
     TrainingConfig__init__ a o = (inr t, o') ->
     output_dir t = PPath (Path_of x) /\ is_dir o' (Path_of x) = true) /\
  (forall a x d o', a_data_dir a = Some x ->
     DataConfig__init__ a o = (inr d, o') ->
     data_dir d = PPath (Path_of x) /\ is_dir o' (Path_of x) = true) /\
  (forall a p, a_cache_dir a = Some p ->
     exists m, ModelConfig__init__ a o = (inr m, o) /\ cache_dir m = Some p).
Proof.
  split; [|split].
  - intros a x t o' Ha H. apply TrainingConfig__init__inv in H as [_ H].
    specialize (H t eq_refl). unfold training_dir in H. rewrite Ha in H. exact H.
  - intros a x d o' Ha H. apply DataConfig__init__inv in H as [_ H].
    specialize (H d eq_refl). unfold data_dir_of in H. rewrite Ha in H. exact H.
  - intros a p Ha. unfold ModelConfig__init__, ModelConfig__post_init__. simpl.
    rewrite Ha. eexists. split; reflexivity.
Qed.

(** X2. When [api_port] and [num_workers] are both passed explicitly,
    [API_PORT] and [NUM_WORKERS] are not parsed: the outcome of
    construction is the same whatever [int] would make of any text. *)
Theorem explicit_integers_skip_parsing (f g : string -> option Z)
    (a : SettingsArgs) (o : OS) :
  is_Some (a_api_port a) ->
  is_Some (a_num_workers a) ->
  Settings__init__ f a o = Settings__init__ g a o.
Proof.
  intros [zp Hp] [zw Hw]. unfold Settings__init__. rewrite Hp, Hw. reflexivity.
Qed.

Section Parsing.

Variable int_of_str : string -> option Z.

Lemma Settings__init__returns a o s o' :
  Settings__init__ int_of_str a o = (inr s, o') ->
  exists hh m t d zp zw o7 o8,
    staged int_of_str a o hh m t d zp zw o7 o8 /\ grows o o8 /\
    Settings__post_init__ (assigned a o hh m t d zp zw) o8 = (inr s, o') /\
    s = set_hf_home (PPath (Path_of hh)) (assigned a o hh m t d zp zw).
Proof.
  intros H. apply Settings__init__stages in H
    as [(e & E & _)|(hh & m & t & d & zp & zw & o7 & o8 & St & G & H)];
    [discriminate|].
  exists hh, m, t, d, zp, zw, o7, o8. repeat split; try apply St; try apply G; auto.
  apply Settings__post_init__inv in H. apply H.
Qed.

(** X1. Every field passed explicitly to [Settings] is the field of the
    constructed object, whatever the environment table holds; [hf_home]
    is replaced by [Path] of what was passed. *)
Theorem explicit_arguments_win (a : SettingsArgs) (o o' : OS) (s : Settings) :
  Settings__init__ int_of_str a o = (inr s, o') ->
  (forall v, a_env a = Some v -> env s = v) /\
  (forall v, a_debug a = Some v -> debug s = v) /\
  (forall v, a_log_level a = Some v -> log_level s = v) /\
  (forall v, a_hf_token a = Some v -> hf_token s = v) /\
  (forall v, a_hf_home a = Some v -> hf_home s = PPath (Path_of v)) /\
  (forall v, a_model a = Some v -> model s = v) /\
  (forall v, a_training a = Some v -> training s = v) /\
  (forall v, a_data a = Some v -> data s = v) /\
  (forall v, a_api_host a = Some v -> api_host s = v) /\
  (forall v, a_api_port a = Some v -> api_port s = v) /\
  (forall v, a_num_workers a = Some v -> num_workers s = v).
Proof.
  intros H. apply Settings__init__returns in H
    as (hh & m & t & d & zp & zw & o7 & o8 & (E5 & E6 & E7 & E8 & E10 & E11) & _ & _ & ->).
  simpl.
  repeat split; intros v Hv; rewrite Hv in *; simpl in *; try reflexivity;
    unfold ret in *; congruence.
Qed.

(** X3. A text field that is not passed is the value of its variable, or
    the fixed default when the variable is unset; a token that is not
    passed is the value of [HF_TOKEN] or [None]; an integer field that is
    not passed is what [int] makes of its variable or of the default
    text. *)
Theorem environment_defaults (a : SettingsArgs) (o o' : OS) (s : Settings) :
  Settings__init__ int_of_str a o = (inr s, o') ->
  (a_env a = None -> env s = default "development" (environ o !! "ENVIRONMENT")) /\
  (a_log_level a = None -> log_level s = default "INFO" (environ o !! "LOG_LEVEL")) /\
  (a_api_host a = None -> api_host s = default "0.0.0.0" (environ o !! "API_HOST")) /\
  (a_hf_token a = None -> hf_token s = environ o !! "HF_TOKEN") /\
  (a_api_port a = None ->
     int_of_str (default "8000" (environ o !! "API_PORT")) = Some (api_port s)) /\
  (a_num_workers a = None ->
     int_of_str (default "4" (environ o !! "NUM_WORKERS")) = Some (num_workers s)).
Proof.
  intros H. apply Settings__init__returns in H
    as (hh & m & t & d & zp & zw & o7 & o8 & (E5 & E6 & E7 & E8 & E10 & E11)
        & (He & _) & _ & ->).
  simpl.
  repeat split; intros Hv; rewrite Hv in *; simpl in *; try reflexivity.
  - apply (field_or_int int_of_str None "API_PORT" "8000") in E10 as [_ E10].
    rewrite <- He. apply E10; reflexivity.
  - apply (field_or_int int_of_str None "NUM_WORKERS" "4") in E11 as [_ E11].
    rewrite <- He. apply E11; reflexivity.
Qed.

(** The [hf_home] stage when [HF_HOME] is set. *)
Lemma hf_home_stage_env (a : SettingsArgs) (o : OS) (hh : PathLike) (v : string) :
  a_hf_home a = None ->
  environ o !! "HF_HOME" = Some v ->
  field_or (a_hf_home a) hf_home_factory o = (inr hh, o) ->
  hh = PPath (Path_of_str v).
Proof.
  intros Ha Hv E5. rewrite Ha in E5. simpl in E5. unfold hf_home_factory in E5.
  apply bind_inv in E5 as [(e & _ & E)|(h & o1 & Hh & E5)]; [discriminate|].
  apply Path_home_ok in Hh as ->.
  unfold bind, getenv_default, gets, ret in E5. rewrite Hv in E5. simpl in E5.
  inversion E5. reflexivity.
Qed.

(** X4. When [hf_home] is not passed and [HF_HOME] is set, the
    constructed [hf_home] is [Path] of the variable's text, that
    directory exists, and the variable is overwritten with the text of
    that path, which need not be the text it had. *)
Theorem hf_home_is_rewritten (a : SettingsArgs) (o o' : OS) (s : Settings)
    (v : string) :
  a_hf_home a = None ->
  environ o !! "HF_HOME" = Some v ->
  Settings__init__ int_of_str a o = (inr s, o') ->
  hf_home s = PPath (Path_of_str v) /\
  is_dir o' (Path_of_str v) = true /\
  environ o' !! "HF_HOME" = Some (str (Path_of_str v)).
Proof.
  intros Ha Hv H. apply Settings__init__returns in H
    as (hh & m & t & d & zp & zw & o7 & o8 & (E5 & _) & _ & H & ->).
  pose proof (hf_home_stage_env a o hh v Ha Hv E5) as ->.
  apply Settings__post_init__inv in H as (_ & Hd & Hh & _). simpl in *. auto.
Qed.

(** X5. When [Settings] builds its [training] and [data] itself and
    returns, [./outputs], [./data] and [hf_home] are all directories. *)
Theorem settings_directories_exist (a : SettingsArgs) (o o' : OS) (s : Settings) :
  a_training a = None ->
  a_data a = None ->
  Settings__init__ int_of_str a o = (inr s, o') ->
  output_dir (training s) = PPath (Path_of_str "./outputs") /\
  data_dir (data s) = PPath (Path_of_str "./data") /\
  is_dir o' (Path_of_str "./outputs") = true /\
  is_dir o' (Path_of_str "./data") = true /\
  exists p, hf_home s = PPath p /\ is_dir o' p = true.
Proof.
  intros Ht Hd H. apply Settings__init__returns in H
    as (hh & m & t & d & zp & zw & o7 & o8 & (_ & _ & E7 & E8 & _) & _ & H & ->).
  rewrite Ht in E7. rewrite Hd in E8. simpl in E7, E8.
  apply TrainingConfig__init__inv in E7 as [_ E7]. destruct (E7 t eq_refl) as [Ho Hdo].
  pose proof E8 as E8'.
  apply DataConfig__init__inv in E8 as [_ E8]. destruct (E8 d eq_refl) as [Hdd Hdi].
  pose proof (field_or_data_grows None _ _ _ E8') as (_ & _ & _ & _ & Hq8).
  pose proof (Settings__post_init__frame _ _ _ _ H) as (_ & _ & _ & Hq & _).
  apply Settings__post_init__inv in H as (_ & Hdh & _).
  simpl.
  split; [exact Ho|]. split; [exact Hdd|].
  split; [apply Hq, Hq8; exact Hdo|]. split; [apply Hq; exact Hdi|].
  eexists. split; [reflexivity|exact Hdh].
Qed.

(** X6. The [cache_dir] of a [model] that [Settings] builds itself is
    [{home}/.cache/huggingface] whatever [HF_HOME] says: [HF_HOME] moves
    [hf_home] only. *)
Theorem model_cache_dir_ignores_hf_home (a : SettingsArgs) (o o' : OS) (s : Settings) :
  a_model a = None ->
  Settings__init__ int_of_str a o = (inr s, o') ->
  exists h, Path_home o = (inr h, o) /\
    cache_dir (model s) = Some (h // ".cache" // "huggingface") /\
    (forall v, a_hf_home a = None -> environ o !! "HF_HOME" = Some v ->
       hf_home s = PPath (Path_of_str v)).
Proof.
  intros Hm H. apply Settings__init__returns in H
    as (hh & m & t & d & zp & zw & o7 & o8 & (E5 & E6 & _) & _ & _ & ->).
  rewrite Hm in E6. simpl in E6.
  apply ModelConfig__init__inv in E6 as [_ E6]. specialize (E6 m eq_refl).
  simpl in E6. destruct E6 as (h & Hh & Hc). exists h. simpl.
  repeat split; auto.
  intros v Ha Hv. rewrite (hf_home_stage_env a o hh v Ha Hv E5). reflexivity.
Qed.

(** X7. Construction, whether it returns or raises, never removes a
    directory, never changes the working directory, and changes no
    environment variable other than [HF_HOME] and [HF_TOKEN]; when it
    raises, [HF_TOKEN] is what it was. *)
Theorem construction_frame (a : SettingsArgs) (o o' : OS) (r : Exn + Settings) :
  Settings__init__ int_of_str a o = (r, o') ->
  cwd o' = cwd o /\
  (forall q, is_dir o q = true -> is_dir o' q = true) /\
  (forall k, k <> "HF_HOME" -> k <> "HF_TOKEN" -> environ o' !! k = environ o !! k) /\
  (forall e, r = inl e -> environ o' !! "HF_TOKEN" = environ o !! "HF_TOKEN").
Proof.
  intros H. apply Settings__init__stages in H
    as [(e & -> & (He & Hc & _ & _ & Hq))
       |(hh & m & t & d & zp & zw & o7 & o8 & _ & (He & Hc & _ & _ & Hq) & H)].
  - rewrite He. repeat split; auto.
  - apply Settings__post_init__frame in H as (Hc' & _ & _ & Hq' & Hk' & Ht').
    repeat split.
    + congruence.
    + auto.
    + intros k H1 H2. rewrite Hk' by (apply exported_false; auto).
      rewrite He. reflexivity.
    + intros e E. rewrite (Ht' e E), He. reflexivity.
Qed.

End Parsing.

End ConfigProps.

(** ** Building the settings a second time *)

Module RepeatFacts.
Import Text Pathlib Sys Config Stages.
Import PathFacts SysFacts FsFacts ConfigFacts SettingsFacts StageFacts FrameFacts.

Lemma Path_home_transfer o o1 h :
  Path_home o = (inr h, o) ->
  environ o1 !! "HOME" = environ o !! "HOME" ->
  pw_dir o1 = pw_dir o ->
  Path_home o1 = (inr h, o1).
Proof.
  unfold Path_home, expanduser_home. intros H He Hp. rewrite He, Hp.
  destruct (starts_with_tilde _); inversion H. reflexivity.
Qed.

Lemma hf_home_factory_inv o hh o' :
  hf_home_factory o = (inr hh, o') ->
  exists h, Path_home o = (inr h, o) /\
    hh = PPath (Path_of_str
                  (default (str (h // ".cache" // "huggingface"))
                     (environ o !! "HF_HOME"))).
Proof.
  unfold hf_home_factory. intros H.
  apply bind_inv in H as [(e & _ & E)|(h & o1 & Hh & H)]; [discriminate|].
  pose proof (Path_home_ok _ _ _ Hh) as ->. inversion H; subst. eauto.
Qed.

Lemma hf_home_factory_run o h :
  Path_home o = (inr h, o) ->
  hf_home_factory o
  = (inr (PPath (Path_of_str
                   (default (str (h // ".cache" // "huggingface"))
                      (environ o !! "HF_HOME")))), o).
Proof. intros H. unfold hf_home_factory, bind. rewrite H. reflexivity. Qed.

Lemma ModelConfig__init__transfer a o o1 m :
  ModelConfig__init__ a o = (inr m, o) ->
  environ o1 !! "HOME" = environ o !! "HOME" ->
  pw_dir o1 = pw_dir o ->
  ModelConfig__init__ a o1 = (inr m, o1).
Proof.
  unfold ModelConfig__init__, ModelConfig__post_init__. simpl cache_dir.
  destruct (a_cache_dir a); intros H He Hp.
  - inversion H. reflexivity.
  - apply bind_inv in H as [(e & _ & E)|(h & o2 & Hh & H)]; [discriminate|].
    pose proof (Path_home_ok _ _ _ Hh) as ->.
    cbn [cache_dir default_model device max_length batch_size precision] in *.
    rewrite (bind_ok _ _ _ _ _ (Path_home_transfer _ _ _ Hh He Hp)).
    inversion H. reflexivity.
Qed.

Lemma TrainingConfig__init__transfer a o o7 t o1 :
  TrainingConfig__init__ a o = (inr t, o7) ->
  is_dir o1 (training_dir a) = true ->
  TrainingConfig__init__ a o1 = (inr t, log (EMkdir (training_dir a)) o1).
Proof.
  unfold TrainingConfig__init__, TrainingConfig__post_init__. simpl output_dir.
  fold (training_dir a). intros H Hd.
  apply bind_inv in H as [(e & _ & E)|([] & o2 & Hm & H)]; [discriminate|].
  rewrite (bind_ok _ _ _ _ _
             (mkdir_parents_noop _ _ Hd (mkdir_parents_no_nul _ _ _ Hm))).
  inversion H. reflexivity.
Qed.

Lemma DataConfig__init__transfer a o o8 d o1 :
  DataConfig__init__ a o = (inr d, o8) ->
  is_dir o1 (data_dir_of a) = true ->
  DataConfig__init__ a o1 = (inr d, log (EMkdir (data_dir_of a)) o1).
Proof.
  unfold DataConfig__init__, DataConfig__post_init__. simpl data_dir.
  fold (data_dir_of a). intros H Hd.
  apply bind_inv in H as [(e & _ & E)|([] & o2 & Hm & H)]; [discriminate|].
  rewrite (bind_ok _ _ _ _ _
             (mkdir_parents_noop _ _ Hd (mkdir_parents_no_nul _ _ _ Hm))).
  inversion H. reflexivity.
Qed.

Lemma is_dir_log e o q : is_dir (log e o) q = is_dir o q.
Proof. reflexivity. Qed.

(** What a [__post_init__] that returned has checked. *)
Lemma Settings__post_init__no_nul s0 o1 s o' :
  Settings__post_init__ s0 o1 = (inr s, o') ->
  existsb (has_char nul) (parts (Path_of (hf_home s0))) = false /\
  has_char nul (str (Path_of (hf_home s0))) = false /\
  forall t, hf_token s0 = Some t -> truthy t = true -> has_char nul t = false.
Proof.
  unfold Settings__post_init__. intros H.
  apply bind_inv in H as [(? & _ & ?)|([] & o2 & Hmk & H)]; [discriminate|].
  cbv beta in H.
  apply bind_inv in H as [(? & _ & ?)|([] & o3 & Hh & H)]; [discriminate|].
  cbv beta in H.
  apply bind_inv in H as [(? & _ & ?)|([] & o4 & Ht & H)]; [discriminate|].
  split; [eapply mkdir_parents_no_nul, Hmk|]. split; [eapply putenv_no_nul, Hh|].
  intros t E Htr. rewrite E, Htr in Ht. eapply putenv_no_nul, Ht.
Qed.

(** [__post_init__] on a state that already is as it would leave it. *)
Lemma Settings__post_init__again s0 o :
  is_dir o (Path_of (hf_home s0)) = true ->
  existsb (has_char nul) (parts (Path_of (hf_home s0))) = false ->
  has_char nul (str (Path_of (hf_home s0))) = false ->
  environ o !! "HF_HOME" = Some (str (Path_of (hf_home s0))) ->
  (forall t, hf_token s0 = Some t -> truthy t = true ->
     environ o !! "HF_TOKEN" = Some t /\ has_char nul t = false) ->
  exists o', Settings__post_init__ s0 o
             = (inr (set_hf_home (PPath (Path_of (hf_home s0))) s0), o') /\
            environ o' = environ o /\ nodes o' = nodes o.
Proof.
  intros Hd Hn Hn' Hh Ht. unfold Settings__post_init__.
  rewrite (bind_ok _ _ _ _ _ (mkdir_parents_noop _ _ Hd Hn)).
  rewrite (bind_ok _ _ _ _ _ (putenv_same _ _ (log _ o) Hh Hn')).
  destruct (hf_token s0) as [t|] eqn:E; [destruct (truthy t) eqn:Htr|].
  - destruct (Ht t eq_refl Htr) as [Hv Hnt].
    rewrite (bind_ok _ _ _ _ _ (putenv_same "HF_TOKEN" t (log _ (log _ o)) Hv Hnt)).
    eexists. split; [reflexivity|]. split; reflexivity.
  - eexists. split; [reflexivity|]. split; reflexivity.
  - eexists. split; [reflexivity|]. split; reflexivity.
Qed.

End RepeatFacts.

Module Repeat.
Import Text Pathlib Sys Config Stages.
Import PathFacts SysFacts FsFacts ConfigFacts SettingsFacts StageFacts FrameFacts.
Import RepeatFacts ConfigProps.

Section Parsing.

Variable int_of_str : string -> option Z.

Lemma int_factory_transfer k d o o1 z :
  int_factory int_of_str k d o = (inr z, o) ->
  environ o1 !! k = environ o !! k ->
  int_factory int_of_str k d o1 = (inr z, o1).
Proof.
  unfold int_factory, bind, getenv_default, gets, py_int. intros H He. rewrite He.
  destruct (int_of_str _); inversion H. reflexivity.
Qed.

Lemma Settings__init__again (o o1 : OS) (s : Settings) :
  Settings__init__ int_of_str Settings_no_args o = (inr s, o1) ->
  exists o2,
    Settings__init__ int_of_str Settings_no_args o1 = (inr s, o2) /\
    environ o2 = environ o1 /\ nodes o2 = nodes o1.
Proof.
  intros H.
  apply Settings__init__returns in H
    as (hh & m & t & d & zp & zw & o7 & o8
        & (E5 & E6 & E7 & E8 & E10 & E11) & G & Hpost & Hs).
  simpl in E5, E6, E7, E8, E10, E11.
  destruct G as (He8 & Hc8 & Hp8 & _ & _).
  pose proof (Settings__post_init__frame _ _ _ _ Hpost) as (Hc1 & Hp1 & _ & Hq1 & Hk1 & _).
  pose proof (Settings__post_init__no_nul _ _ _ _ Hpost) as (Hn1 & Hn2 & Hn3).
  apply Settings__post_init__inv in Hpost as (_ & Hdir & Hhome & Htok & _).
  cbn [hf_home hf_token assigned] in *. rewrite He8 in Htok.
  change (default (environ o !! "HF_TOKEN") (a_hf_token Settings_no_args))
    with (environ o !! "HF_TOKEN") in *.
  apply hf_home_factory_inv in E5 as (h & Hh & Ehh).
  assert (K : forall k, exported k = false -> environ o1 !! k = environ o !! k).
  { intros k Hk. rewrite (Hk1 k Hk), He8. reflexivity. }
  assert (KT : environ o1 !! "HF_TOKEN" = environ o !! "HF_TOKEN").
  { destruct (token_truthy (environ o !! "HF_TOKEN")); exact Htok. }
  assert (Hh1 : Path_home o1 = (inr h, o1)).
  { apply (Path_home_transfer o); [exact Hh|apply K; reflexivity|congruence]. }
  assert (Hwf : wf (Path_of hh)).
  { rewrite Ehh. apply Path_of_str_wf. }
  assert (E5' : hf_home_factory o1 = (inr hh, o1)).
  { rewrite (hf_home_factory_run o1 h Hh1), Hhome. simpl default.
    rewrite (Path_of_str_str _ Hwf). rewrite Ehh. reflexivity. }
  assert (E6' : ModelConfig__init__ ModelConfig_no_args o1 = (inr m, o1)).
  { apply (ModelConfig__init__transfer _ o); [exact E6|apply K; reflexivity|congruence]. }
  pose proof (field_or_data_grows None _ _ _ E8) as (_ & _ & _ & _ & Hq78).
  assert (Hdt : is_dir o1 (training_dir TrainingConfig_no_args) = true).
  { apply Hq1, Hq78.
    apply TrainingConfig__init__inv in E7 as [_ E7]. apply (E7 t eq_refl). }
  assert (Hdd : is_dir o1 (data_dir_of DataConfig_no_args) = true).
  { apply Hq1. apply DataConfig__init__inv in E8 as [_ E8]. apply (E8 d eq_refl). }
  pose proof (TrainingConfig__init__transfer _ _ _ _ o1 E7 Hdt) as E7'.
  set (o7' := log (EMkdir (training_dir TrainingConfig_no_args)) o1) in *.
  pose proof (DataConfig__init__transfer _ _ _ _ o7' E8 Hdd) as E8'.
  set (o8' := log (EMkdir (data_dir_of DataConfig_no_args)) o7') in *.
  assert (E10' : int_factory int_of_str "API_PORT" "8000" o8' = (inr zp, o8')).
  { apply (int_factory_transfer _ _ o8); [exact E10|].
    change (environ o8') with (environ o1). rewrite (K "API_PORT" eq_refl), He8.
    reflexivity. }
  assert (E11' : int_factory int_of_str "NUM_WORKERS" "4" o8' = (inr zw, o8')).
  { apply (int_factory_transfer _ _ o8); [exact E11|].
    change (environ o8') with (environ o1). rewrite (K "NUM_WORKERS" eq_refl), He8.
    reflexivity. }
  assert (St : staged int_of_str Settings_no_args o1 hh m t d zp zw o7' o8').
  { repeat split; assumption. }
  rewrite (Settings__init__staged int_of_str _ _ _ _ _ _ _ _ _ _ St eq_refl).
  assert (Ea : assigned Settings_no_args o1 hh m t d zp zw
               = assigned Settings_no_args o hh m t d zp zw).
  { unfold assigned, debug_of_env. simpl.
    rewrite (K "ENVIRONMENT" eq_refl), (K "DEBUG" eq_refl), (K "LOG_LEVEL" eq_refl),
      (K "API_HOST" eq_refl), KT. reflexivity. }
  rewrite Ea.
  destruct (Settings__post_init__again (assigned Settings_no_args o hh m t d zp zw) o8')
    as (o2 & Hr & He2 & Hn2'); cbn [hf_home hf_token assigned]; try assumption.
  - intros tk Ht Htr.
    change (default (environ o !! "HF_TOKEN") (a_hf_token Settings_no_args))
      with (environ o !! "HF_TOKEN") in Ht.
    split; [|apply Hn3; assumption].
    change (environ o8') with (environ o1). rewrite KT. exact Ht.
  - exists o2. rewrite Hs. split; [exact Hr|]. split; assumption.
Qed.

(** X8. [Settings()] can be repeated: once it has returned, calling it
    again at once returns an equal object and changes neither the
    environment table nor the file system. *)
Theorem construction_is_repeatable (o o1 : OS) (s : Settings) :
  Settings__init__ int_of_str Settings_no_args o = (inr s, o1) ->
  exists o2,
    Settings__init__ int_of_str Settings_no_args o1 = (inr s, o2) /\
    environ o2 = environ o1 /\ nodes o2 = nodes o1.
Proof. apply Settings__init__again. Qed.

End Parsing.

End Repeat.

(** ** Further properties of the singleton *)

Module ProviderProps.
Import Text Pathlib Sys Config Provider ConfigFacts ProviderFacts.

Section Parsing.

Variable int_of_str : string -> option Z.

(** X9. After a call that raised, nothing is cached from the failure: a
    global that was set still serves the previous object without
    rebuilding, and a global that was unset makes the next call build
    again, reload or not. *)
Theorem after_failed_get (r : bool) (s s1 : Proc) (e : Exn) :
  get_settings int_of_str r s = (inl e, s1) ->
  heap s1 = heap s /\
  match _settings s with
  | Some l => get_settings int_of_str false s1 = (inr (Some l), s1)
  | None => get_settings int_of_str false s1 = get_settings int_of_str true s1
  end.
Proof.
  intros H.
  apply get_settings_cases in H
    as [(_ & l & _ & E & _)|(_ & [(e' & o' & _ & ->)|(v & o' & E & _)])];
    [discriminate| |discriminate].
  split; [reflexivity|].
  destruct (_settings s) as [l|] eqn:Hs.
  - apply get_settings_stored. reflexivity.
  - unfold get_settings, bind, gets. simpl. reflexivity.
Qed.

(** X10. No call to [get_settings], with or without reload, returning
    or raising, modifies a settings object that already exists, in any
    sequence of calls interleaved with changes of the environment table
    and of the file system and with the creation of other objects.
    (Other code assigning a field of a settings object is not one of the
    actions of these sequences.) *)
Theorem objects_never_change (acts : list Action) : forall (s s' : Proc)
    (outs : list (Exn + option nat)) (l : nat) (v : Settings),
  run int_of_str acts s = (outs, s') ->
  heap s !! l = Some v ->
  heap s' !! l = Some v.
Proof.
  induction acts as [|[r|o objs] rest IH]; intros s s' outs l v H Hl; simpl in H.
  - inversion H; subst. exact Hl.
  - destruct (get_settings int_of_str r s) as [x s1] eqn:G.
    destruct (run int_of_str rest s1) as [xs s2] eqn:R.
    inversion H; subst. clear H.
    eapply IH; [exact R|].
    apply get_settings_cases in G
      as [(_ & l0 & _ & _ & ->)|(_ & [(e & o' & _ & ->)|(v0 & o' & _ & ->)])];
      simpl; auto.
    apply lookup_app_l_Some. exact Hl.
  - eapply IH; [exact H|]. simpl. apply lookup_app_l_Some. exact Hl.
Qed.

(** X11. A call that returns never returns [None]: it returns an object
    that exists and that the global refers to. *)
Theorem get_settings_returns_object (r : bool) (s s' : Proc) (x : option nat) :
  slot_ok s ->
  get_settings int_of_str r s = (inr x, s') ->
  exists l v, x = Some l /\ _settings s' = Some l /\ heap s' !! l = Some v.
Proof.
  intros Hok H.
  apply get_settings_cases in H
    as [(_ & l & Hs & E & ->)|(_ & [(e & o' & E & _)|(v & o' & E & ->)])];
    [| discriminate |].
  - inversion E; subst. unfold slot_ok in Hok. rewrite Hs in Hok.
    destruct (lookup_lt_is_Some_2 (heap s) l Hok) as [v Hv]. eauto.
  - inversion E; subst. exists (length (heap s)), v. simpl.
    repeat split. rewrite lookup_app_r by lia. rewrite Nat.sub_diag. reflexivity.
Qed.

(** X13. A reload that directly follows a build returns a different
    object with the same field values. *)
Theorem reload_rebuilds_equal (r : bool) (s s1 : Proc) (l : nat) :
  _settings s = None \/ r = true ->
  get_settings int_of_str r s = (inr (Some l), s1) ->
  exists s2 v,
    get_settings int_of_str true s1 = (inr (Some (S l)), s2) /\
    heap s2 !! l = Some v /\ heap s2 !! S l = Some v.
Proof.
  intros Hc H.
  pose proof (get_settings_builds int_of_str r s Hc) as B.
  destruct (Settings__init__ int_of_str Settings_no_args (os s)) as [[e|v] o1] eqn:E;
    rewrite B in H; [discriminate|].
  inversion H; subst l s1. clear H B.
  destruct (Repeat.Settings__init__again int_of_str _ _ _ E) as (o2 & E2 & _).
  pose proof (get_settings_builds int_of_str true
                (mkProc o1 (heap s ++ [v])%list (Some (length (heap s))))
                (or_intror eq_refl)) as B2.
  simpl in B2. rewrite E2 in B2.
  rewrite length_app in B2. simpl in B2. rewrite Nat.add_1_r in B2.
  eexists _, v. split; [exact B2|]. simpl. split.
  - rewrite lookup_app_l by (rewrite length_app; simpl; lia).
    rewrite lookup_app_r by lia. rewrite Nat.sub_diag. reflexivity.
  - rewrite lookup_app_r by (rewrite length_app; simpl; lia).
    rewrite length_app. simpl.
    replace (S (length (heap s)) - (length (heap s) + 1))%nat with 0%nat by lia.
    reflexivity.
Qed.

End Parsing.

End ProviderProps.

(** ** The diagram script *)

Module DiagramFacts.
Import Text Pathlib Sys Diagrams SysFacts ConfigFacts StageFacts.

Lemma print_end_run text e s :
  print_end text e s = (inr tt, mkScript (s_os s) (stdout s ++ text ++ e) (spawned s)).
Proof. reflexivity. Qed.

Lemma print_run text s :
  print text s = (inr tt, mkScript (s_os s) (stdout s ++ text ++ nl) (spawned s)).
Proof. reflexivity. Qed.

Lemma lift_inv {A} (m : M OS A) s r s' :
  lift m s = (r, s') ->
  m (s_os s) = (r, s_os s') /\ stdout s' = stdout s /\ spawned s' = spawned s.
Proof.
  unfold lift. destruct (m (s_os s)) as [r1 o1]. intros H. inversion H; subst. auto.
Qed.

Lemma count_ok_app l1 l2 : count_ok (l1 ++ l2) = (count_ok l1 + count_ok l2)%nat.
Proof. unfold count_ok. rewrite List.filter_app, length_app. reflexivity. Qed.

Lemma count_ok_le l : (count_ok l <= length l)%nat.
Proof. unfold count_ok. apply List.filter_length_le. Qed.

(** All counted exactly when all exited with status 0. *)
Lemma count_ok_all l :
  count_ok l = length l <-> Forall (fun e => exited_0 (snd e) = true) l.
Proof.
  unfold count_ok. induction l as [|x l IH]; simpl.
  - split; [constructor|reflexivity].
  - destruct (exited_0 (snd x)) eqn:E; simpl.
    + split.
      * intros H. constructor; [exact E|]. apply IH. lia.
      * intros H. inversion H; subst. f_equal. apply IH. assumption.
    + split.
      * intros H. pose proof (List.filter_length_le (fun e => exited_0 (snd e)) l). lia.
      * intros H. inversion H; subst. congruence.
Qed.

Section Tool.

Variable subprocess_run : list string -> OS -> Spawn * OS.
Variable rglob_mmd : OS -> Path -> list Path.
Variable path_exists : OS -> Path -> Exn + bool.
Variable upper : string -> string.

Lemma spawn_inv cmd s r s' :
  spawn subprocess_run cmd s = (r, s') ->
  exists x, r = inr x /\ subprocess_run cmd (s_os s) = (x, s_os s') /\
            stdout s' = stdout s /\ spawned s' = (spawned s ++ [(cmd, x)])%list.
Proof.
  unfold spawn. destruct (subprocess_run cmd (s_os s)) as [x o1].
  intros H. inversion H; subst. eauto.
Qed.

Lemma print_end_inv text e s r s' :
  print_end text e s = (r, s') ->
  r = inr tt /\ s_os s' = s_os s /\ spawned s' = spawned s /\
  stdout s' = stdout s ++ text ++ e.
Proof. intros H. inversion H; subst. auto. Qed.

(** [generate_diagram], case by case: [mkdir] raised and the tool was not
    run; or the directory is there, the tool was run once on the command
    line of [mmdc_cmd], and the result is [True] for status 0, [False]
    for another status, an exception when the tool could not be
    started. *)
Lemma generate_diagram_cases input_file od format bg s res s' :
  generate_diagram subprocess_run upper input_file od format bg s = (res, s') ->
  let cmd := mmdc_cmd input_file od (default "pdf" format) (default "transparent" bg) in
  (exists e, mkdir_parents od (s_os s) = (inl e, s_os s') /\
             res = inl e /\ spawned s' = spawned s) \/
  (exists o1 r, mkdir_parents od (s_os s) = (inr tt, o1) /\
                subprocess_run cmd o1 = (r, s_os s') /\
                spawned s' = (spawned s ++ [(cmd, r)])%list /\
                res = match r with
                      | Completed rc _ _ => inr (Z.eqb rc 0)
                      | NotFound => inl OSError
                      | Raised e => inl e
                      end).
Proof.
  intros H. cbv zeta. unfold generate_diagram in H. cbv zeta in H.
  apply bind_inv in H as [(e & H & ->)|([] & s1 & Hmk & H)].
  { apply lift_inv in H as (H & _ & Hs). left. eauto. }
  apply lift_inv in Hmk as (Hmk & _ & Hs1). cbv beta in H.
  apply bind_inv in H as [(e & H & _)|([] & s2 & Hp & H)];
    [apply print_end_inv in H as (H & _); discriminate|].
  apply print_end_inv in Hp as (_ & Ho2 & Hs2 & _). cbv beta in H.
  apply bind_inv in H as [(e & H & _)|(r & s3 & Hr & H)];
    [apply spawn_inv in H as (x & H & _); discriminate|].
  apply spawn_inv in Hr as (x & E & Hrun & _ & Hs3). inversion E; subst x. clear E.
  rewrite Ho2 in Hrun. rewrite Hs2, Hs1 in Hs3.
  right. exists (s_os s1), r.
  assert (Hres : forall (b : Exn + bool) (s4 : Script),
            s_os s4 = s_os s3 -> spawned s4 = spawned s3 -> (b, s4) = (res, s') ->
            mkdir_parents od (s_os s) = (inr (), s_os s1) /\
            subprocess_run
              (mmdc_cmd input_file od (default "pdf" format) (default "transparent" bg))
              (s_os s1) = (r, s_os s') /\
            spawned s' =
              (spawned s ++
               [(mmdc_cmd input_file od (default "pdf" format)
                   (default "transparent" bg), r)])%list /\
            res = b).
  { intros b s4 Ho Hs E. inversion E; subst. rewrite Ho, Hs. auto. }
  destruct r as [|e|rc out err].
  - eapply Hres; [| |exact H]; reflexivity.
  - eapply Hres; [| |exact H]; reflexivity.
  - destruct (Z.eqb rc 0); eapply Hres; [| |exact H| | |exact H]; reflexivity.
Qed.

(** A call that returns has run exactly its command, and returns whether
    that run exited with status 0. *)
Lemma generate_diagram_returns input_file od fmt bg s b s' :
  generate_diagram subprocess_run upper input_file od (Some fmt) (Some bg) s
  = (inr b, s') ->
  exists r, spawned s' = (spawned s ++ [(mmdc_cmd input_file od fmt bg, r)])%list /\
            b = exited_0 r.
Proof.
  intros H. apply generate_diagram_cases in H
    as [(e & _ & E & _)|(o1 & r & _ & _ & Hs & E)]; [discriminate|].
  simpl in *. exists r. split; [exact Hs|].
  destruct r; inversion E; reflexivity.
Qed.

Lemma for_formats_returns a f : forall fmts c s c' s',
  for_each fmts
    (fun fmt count =>
       let* ok := generate_diagram subprocess_run upper f (output_dir a)
                    (Some fmt) (Some (background a)) in
       ret (if ok then S count else count)) c s = (inr c', s') ->
  exists entries,
    spawned s' = (spawned s ++ entries)%list /\
    List.map fst entries
    = List.map (fun fmt => mmdc_cmd f (output_dir a) fmt (background a)) fmts /\
    c' = (c + count_ok entries)%nat.
Proof.
  induction fmts as [|fmt rest IH]; intros c s c' s' H; simpl in H.
  - inversion H; subst. exists []. rewrite app_nil_r. simpl. auto.
  - apply bind_inv in H as [(e & _ & E)|(c1 & s1 & Hb & H)]; [discriminate|].
    apply bind_inv in Hb as [(e & _ & E)|(ok & s2 & Hg & Hb)]; [discriminate|].
    cbv beta in Hb. inversion Hb; subst c1 s2. clear Hb.
    apply generate_diagram_returns in Hg as (r & Hs1 & ->).
    apply IH in H as (entries & Hs & Hm & ->).
    exists ((mmdc_cmd f (output_dir a) fmt (background a), r) :: entries).
    split; [rewrite Hs, Hs1, <- app_assoc; reflexivity|].
    split; [simpl; rewrite Hm; reflexivity|].
    unfold count_ok. simpl. destruct (exited_0 r); simpl; lia.
Qed.

Lemma for_files_returns a : forall files c s c' s',
  for_each files
    (fun mermaid_file count =>
       for_each (formats a)
         (fun fmt count =>
            let* ok := generate_diagram subprocess_run upper mermaid_file (output_dir a)
                         (Some fmt) (Some (background a)) in
            ret (if ok then S count else count))
         count) c s = (inr c', s') ->
  exists entries,
    spawned s' = (spawned s ++ entries)%list /\
    List.map fst entries = all_commands a files /\
    c' = (c + count_ok entries)%nat.
Proof.
  induction files as [|f rest IH]; intros c s c' s' H; simpl in H.
  - inversion H; subst. exists []. rewrite app_nil_r. simpl. auto.
  - apply bind_inv in H as [(e & _ & E)|(c1 & s1 & Hb & H)]; [discriminate|].
    apply for_formats_returns in Hb as (e1 & Hs1 & Hm1 & ->).
    apply IH in H as (e2 & Hs2 & Hm2 & ->).
    exists (e1 ++ e2)%list.
    split; [rewrite Hs2, Hs1, <- app_assoc; reflexivity|].
    split; [simpl; rewrite List.map_app, Hm1, Hm2; reflexivity|].
    rewrite count_ok_app. lia.
Qed.

Lemma generate_all_returns a files s c s' :
  generate_all subprocess_run upper a files s = (inr c, s') ->
  exists entries,
    spawned s' = (spawned s ++ entries)%list /\
    List.map fst entries = all_commands a files /\
    c = count_ok entries.
Proof.
  intros H. apply for_files_returns in H as (entries & Hs & Hm & ->). eauto.
Qed.

Lemma all_commands_length a files :
  length (all_commands a files) = (length files * length (formats a))%nat.
Proof.
  unfold all_commands. induction files as [|f rest IH]; simpl; [reflexivity|].
  rewrite length_app, List.length_map, IH. reflexivity.
Qed.

Lemma check_mermaid_cli_inv s r s1 :
  check_mermaid_cli subprocess_run s = (r, s1) ->
  exists r0, subprocess_run version_cmd (s_os s) = (r0, s_os s1) /\
    stdout s1 = stdout s /\
    spawned s1 = (spawned s ++ [(version_cmd, r0)])%list /\
    r = match r0 with
        | Raised e => inl e
        | _ => inr (exited_0 r0)
        end.
Proof.
  unfold check_mermaid_cli. intros H.
  apply bind_inv in H as [(e & H & _)|(r0 & s2 & Hr & H)];
    [apply spawn_inv in H as (x & H & _); discriminate|].
  apply spawn_inv in Hr as (x & E & Hrun & Ho & Hs). inversion E; subst x. clear E.
  exists r0. destruct r0; inversion H; subst; auto.
Qed.

(** Looking for the files runs no command. *)
Lemma files_to_process_inv a s1 r s2 :
  files_to_process rglob_mmd path_exists a s1 = (r, s2) ->
  spawned s2 = spawned s1 /\
  match file a with
  | Some f =>
      s_os s2 = s_os s1 /\
      r = match path_exists (s_os s1) f with
          | inl e => inl e
          | inr b => inr (if b then inr [f] else inl (SysExit 1))
          end
  | None =>
      (exists e, path_exists (s_os s1) (input_dir a) = inl e /\ s_os s2 = s_os s1 /\
                 r = inl e) \/
      (path_exists (s_os s1) (input_dir a) = inr true /\ s_os s2 = s_os s1 /\
       r = inr (inr (rglob_mmd (s_os s1) (input_dir a)))) \/
      (path_exists (s_os s1) (input_dir a) = inr false /\
       exists x, mkdir_parents (input_dir a) (s_os s1) = (x, s_os s2) /\
         r = match x with
             | inl e => inl e
             | inr _ => inr (inr (rglob_mmd (s_os s2) (input_dir a)))
             end)
  end.
Proof.
  unfold files_to_process, find_mermaid_files, exists_. intros H.
  destruct (file a) as [f|].
  - unfold bind in H. destruct (path_exists (s_os s1) f) as [e|[|]]; simpl in H;
      inversion H; subst; auto.
  - unfold bind at 1 in H.
    destruct (path_exists (s_os s1) (input_dir a)) as [e|[|]] eqn:Ex;
      simpl negb in H; cbv iota in H.
    + inversion H; subst. split; [reflexivity|]. left. eauto.
    + unfold bind, gets, ret in H. inversion H; subst.
      split; [reflexivity|]. right. left. auto.
    + apply bind_inv in H as [(e & H & ->)|([] & s3 & Hm & H)].
      * rewrite (bind_ok _ _ _ _ _ (print_run _ _)) in H.
        rewrite (bind_ok _ _ _ _ _ (print_run _ _)) in H.
        apply lift_inv in H as (H & _ & Hs). simpl in *.
        split; [exact Hs|]. right. right. split; [reflexivity|].
        eexists. split; [exact H|]. reflexivity.
      * rewrite (bind_ok _ _ _ _ _ (print_run _ _)) in Hm.
        rewrite (bind_ok _ _ _ _ _ (print_run _ _)) in Hm.
        apply lift_inv in Hm as (Hm & _ & Hs). simpl in *.
        unfold bind, gets, ret in H. inversion H; subst.
        split; [exact Hs|]. right. right. split; [reflexivity|].
        eexists. split; [exact Hm|]. reflexivity.
Qed.

End Tool.

End DiagramFacts.

Module MainFacts.
Import Text Pathlib Sys Diagrams SysFacts ConfigFacts StageFacts DiagramFacts.

Section Tool.

Variable subprocess_run : list string -> OS -> Spawn * OS.
Variable rglob_mmd : OS -> Path -> list Path.
Variable path_exists : OS -> Path -> Exn + bool.
Variable upper : string -> string.

(** What [main] does once the files are known. *)
Lemma main_after_files a files s2 res s' :
  (match files with
   | [] =>
       let* _ := print ("No .mmd files found in " ++ str (input_dir a)) in
       ret (SysExit 0)
   | _ =>
       let* _ := print ("Found " ++ pretty (length files) ++ " Mermaid file(s)") in
       let* _ := print "" in
       let* success_count := generate_all subprocess_run upper a files in
       let* _ := print "" in
       let* _ := print ("Generated " ++ pretty success_count ++ "/"
                         ++ pretty (length files * length (formats a))%nat
                         ++ " diagram(s)") in
       if Nat.ltb success_count (length files * length (formats a))
       then ret (SysExit 1) else ret Return
   end) s2 = (res, s') ->
  (files = [] /\ res = inr (SysExit 0) /\ s_os s' = s_os s2 /\ spawned s' = spawned s2) \/
  (files <> [] /\
   ((exists e, res = inl e) \/
    (exists entries,
       spawned s' = (spawned s2 ++ entries)%list /\
       List.map fst entries = all_commands a files /\
       res = inr (if Nat.ltb (count_ok entries) (length entries)
                  then SysExit 1 else Return)))).
Proof.
  destruct files as [|f rest].
  - intros H. inversion H; subst. left. auto.
  - intros H. right. split; [discriminate|].
    set (files := f :: rest) in *.
    rewrite (bind_ok _ _ _ _ _ (print_run _ _)) in H.
    rewrite (bind_ok _ _ _ _ _ (print_run _ _)) in H.
    apply bind_inv in H as [(e & H & ->)|(c & s3 & Hg & H)]; [left; eauto|].
    right. apply generate_all_returns in Hg as (entries & Hs & Hm & ->).
    exists entries. cbv beta in H.
    rewrite (bind_ok _ _ _ _ _ (print_run _ _)) in H.
    rewrite (bind_ok _ _ _ _ _ (print_run _ _)) in H.
    assert (Hlen : length entries = (length files * length (formats a))%nat).
    { rewrite <- all_commands_length, <- Hm, List.length_map. reflexivity. }
    rewrite <- Hlen in H.
    destruct (Nat.ltb (count_ok entries) (length entries));
      inversion H; subst; simpl; auto.
Qed.

(** [main], case by case. *)
Lemma main_inv a s res s' :
  main subprocess_run rglob_mmd path_exists upper a s = (res, s') ->
  exists r0 s1,
    subprocess_run version_cmd (s_os s) = (r0, s_os s1) /\
    spawned s1 = (spawned s ++ [(version_cmd, r0)])%list /\
    ((exists e, r0 = Raised e /\ res = inl e /\ s' = s1) \/
     ((forall e, r0 <> Raised e) /\ exited_0 r0 = false /\ res = inr (SysExit 1) /\
      s_os s' = s_os s1 /\ spawned s' = spawned s1) \/
     (exited_0 r0 = true /\
      exists fr s2, files_to_process rglob_mmd path_exists a s1 = (fr, s2) /\
        match fr with
        | inl e => res = inl e /\ s' = s2
        | inr (inl ex) => res = inr ex /\ s' = s2
        | inr (inr files) =>
            (files = [] /\ res = inr (SysExit 0) /\ s_os s' = s_os s2 /\
             spawned s' = spawned s2) \/
            (files <> [] /\
             ((exists e, res = inl e) \/
              (exists entries,
                 spawned s' = (spawned s2 ++ entries)%list /\
                 List.map fst entries = all_commands a files /\
                 res = inr (if Nat.ltb (count_ok entries) (length entries)
                            then SysExit 1 else Return))))
        end)).
Proof.
  unfold main. intros H.
  apply bind_inv in H as [(e & H & ->)|(ok & s1 & Hc & H)].
  - apply check_mermaid_cli_inv in H as (r0 & Hrun & _ & Hs & E).
    exists r0, s'. split; [exact Hrun|]. split; [exact Hs|]. left.
    destruct r0; inversion E; eauto.
  - apply check_mermaid_cli_inv in Hc as (r0 & Hrun & _ & Hs & E).
    exists r0, s1. split; [exact Hrun|]. split; [exact Hs|]. right.
    assert (Hok : ok = exited_0 r0 /\ forall e, r0 <> Raised e).
    { destruct r0; inversion E; split; try reflexivity; discriminate. }
    destruct Hok as [-> Hne]. clear E.
    destruct (exited_0 r0) eqn:Hex; simpl negb in H; cbv iota in H.
    + right. split; [reflexivity|].
      apply bind_inv in H as [(e & H & ->)|(fr & s2 & Hf & H)].
      * exists (inl e), s'. auto.
      * exists (inr fr), s2. split; [exact Hf|].
        destruct fr as [ex|files].
        -- inversion H; subst. auto.
        -- apply main_after_files. exact H.
    + left. inversion H; subst. simpl. auto.
Qed.

End Tool.

End MainFacts.

(** ** Names of the generated files *)

Module NameFacts.
Import Text Pathlib Sys Diagrams PathFacts.

Lemma rfind_dot_none s : has_char "."%char s = false -> rfind_dot s = None.
Proof.
  induction s as [|c s IH]; simpl; [reflexivity|].
  intros H. apply orb_false_iff in H as [Hc Hs]. rewrite (IH Hs), Hc. reflexivity.
Qed.

Lemma append_nil (b : string) : "" ++ b = b.
Proof. reflexivity. Qed.

Lemma append_cons c (a b : string) : String c a ++ b = String c (a ++ b).
Proof. reflexivity. Qed.

Lemma rfind_dot_app base ext :
  has_char "."%char ext = false ->
  rfind_dot (base ++ "." ++ ext) = Some (String.length base).
Proof.
  intros H. induction base as [|c b IH].
  - rewrite append_nil, append_cons, append_nil. simpl.
    rewrite (rfind_dot_none _ H). reflexivity.
  - rewrite append_cons. simpl. rewrite IH. reflexivity.
Qed.

Lemma string_length_app a b :
  String.length (a ++ b) = (String.length a + String.length b)%nat.
Proof.
  induction a as [|c a IH]; [reflexivity|].
  rewrite append_cons. simpl. rewrite IH. reflexivity.
Qed.

Lemma substring_prefix a b : String.substring 0 (String.length a) (a ++ b) = a.
Proof.
  induction a as [|c a IH].
  - rewrite append_nil. destruct b; reflexivity.
  - rewrite append_cons. simpl. rewrite IH. reflexivity.
Qed.

Lemma stem_of_name p base ext :
  name p = base ++ "." ++ ext ->
  base <> "" -> ext <> "" -> has_char "."%char ext = false ->
  stem p = base.
Proof.
  intros Hn Hb He Hd. unfold stem. rewrite Hn, (rfind_dot_app _ _ Hd).
  rewrite !string_length_app.
  assert (0 < String.length base)%nat by (destruct base; [congruence|simpl; lia]).
  assert (0 < String.length ext)%nat by (destruct ext; [congruence|simpl; lia]).
  replace (Nat.ltb 0 (String.length base)) with true
    by (symmetry; apply Nat.ltb_lt; lia).
  replace (Nat.ltb (String.length base)
             (String.length base + (String.length "." + String.length ext) - 1))
    with true by (symmetry; apply Nat.ltb_lt; simpl; lia).
  simpl andb. cbv iota. apply substring_prefix.
Qed.

Lemma has_char_app a x y :
  has_char a (x ++ y) = (has_char a x || has_char a y)%bool.
Proof.
  induction x as [|c x IH]; [reflexivity|].
  rewrite append_cons. simpl. rewrite IH, orb_assoc. reflexivity.
Qed.

(** A text without slash that is neither empty nor ["."] is a path of
    one component. *)
Lemma Path_of_str_single seg :
  has_char slash seg = false -> seg <> "" -> seg <> "." ->
  Path_of_str seg = mkPath 0 [seg].
Proof.
  intros Hs He Hd. unfold Path_of_str.
  destruct seg as [|c r]; [congruence|].
  pose proof Hs as Hs'. apply has_char_slash_cons in Hs' as [Hc _].
  unfold splitroot. rewrite Hc.
  rewrite (split_slash_no_slash _ Hs). simpl List.filter.
  assert (Hk : keep_part (String c r) = true).
  { unfold keep_part. apply andb_true_iff. split; apply negb_true_iff.
    - reflexivity.
    - apply String.eqb_neq. exact Hd. }
  rewrite Hk. reflexivity.
Qed.

End NameFacts.

(** ** Properties of the diagram script *)

Module DiagramProps.
Import Text Pathlib Sys Diagrams.
Import PathFacts SysFacts ConfigFacts StageFacts DiagramFacts MainFacts NameFacts.

(** X14. A file named [base.ext], with [base] and [ext] not empty and no
    dot in [ext], is rendered to [output_dir/base.format]: the directory
    of the input file plays no part in the name of the output. *)
Theorem output_file_name (input_file od : Path) (base ext format : string) :
  name input_file = base ++ "." ++ ext ->
  base <> "" -> ext <> "" -> has_char "."%char ext = false ->
  has_char slash base = false -> has_char slash format = false ->
  output_file_of input_file od format
  = mkPath (root od) (parts od ++ [base ++ "." ++ format]).
Proof.
  intros Hn Hb He Hd Hsb Hsf. unfold output_file_of.
  rewrite (stem_of_name _ _ _ Hn Hb He Hd). unfold truediv.
  rewrite Path_of_str_single; [reflexivity| | |].
  - rewrite !has_char_app, Hsb, Hsf. reflexivity.
  - destruct base; [congruence|discriminate].
  - destruct base as [|c [|c' b]]; [congruence|discriminate|discriminate].
Qed.

Section Tool.

Variable subprocess_run : list string -> OS -> Spawn * OS.
Variable rglob_mmd : OS -> Path -> list Path.
Variable path_exists : OS -> Path -> Exn + bool.
Variable upper : string -> string.




(** X18. Finding no file is not an error: when the tool is there, no
    [--file] is given and the directory holds no [.mmd] file, a [main]
    that does not raise ends with [sys.exit(0)] having run only the
    version check; an input directory that did not exist has been
    created. *)
Theorem main_no_files (a : Args) (s s' : Script) (r0 : Spawn) (o0 : OS) (ex : Exit) :
  subprocess_run version_cmd (s_os s) = (r0, o0) ->
  exited_0 r0 = true ->
  file a = None ->
  (forall o, rglob_mmd o (input_dir a) = []) ->
  main subprocess_run rglob_mmd path_exists upper a s = (inr ex, s') ->
  ex = SysExit 0 /\
  spawned s' = (spawned s ++ [(version_cmd, r0)])%list /\
  (path_exists o0 (input_dir a) = inr false ->
   is_dir (s_os s') (input_dir a) = true).
Proof.
  intros Hrun Hex Hf Hnone E.
  apply main_inv in E as (r & s1 & Hrun' & Hs1 & E).
  rewrite Hrun in Hrun'. inversion Hrun'; subst r o0. clear Hrun'.
  destruct E as [(e0 & _ & E & _)|[(_ & Hn & _)|(_ & fr & s2 & Hfp & E)]];
    [discriminate|congruence|].
  apply files_to_process_inv in Hfp as (Hs2 & Hfr). rewrite Hf in Hfr.
  destruct Hfr as [(e0 & _ & _ & ->)|[(Hp & Ho2 & ->)|(Hp & x & Hm & ->)]].
  - destruct E; discriminate.
  - rewrite Hnone in E.
    destruct E as [(_ & E & Ho & Hs)|(Hne & _)]; [|congruence].
    inversion E; subst ex. rewrite Hs, Hs2. repeat split; auto. congruence.
  - destruct x as [e|[]]; [destruct E; discriminate|].
    rewrite Hnone in E.
    destruct E as [(_ & E & Ho & Hs)|(Hne & _)]; [|congruence].
    inversion E; subst ex. rewrite Hs, Hs2. repeat split; auto.
    intros _. rewrite (is_dir_ext (s_os s2) (s_os s')) by (rewrite Ho; reflexivity).
    eapply mkdir_parents_is_dir, Hm.
Qed.

(** X19. When the tool is there and [main] does not raise, it has run the
    tool once for every file and every format, files first, and for
    nothing else; a failed diagram does not stop the others.  It returns
    normally exactly when there was a file and every run exited with
    status 0, and ends with [sys.exit(0)] exactly when no file was found
    in the directory. *)
Theorem main_runs_every_pair (a : Args) (s s' : Script) (r0 : Spawn) (o0 : OS)
    (ex : Exit) :
  subprocess_run version_cmd (s_os s) = (r0, o0) ->
  exited_0 r0 = true ->
  main subprocess_run rglob_mmd path_exists upper a s = (inr ex, s') ->
  exists files entries,
    match file a with
    | Some f => files = [f] \/ files = []
    | None => exists o, files = rglob_mmd o (input_dir a)
    end /\
    spawned s' = (spawned s ++ (version_cmd, r0) :: entries)%list /\
    List.map fst entries = all_commands a files /\
    (ex = Return <-> files <> [] /\ Forall (fun e => exited_0 (snd e) = true) entries) /\
    (ex = SysExit 0 <-> files = [] /\ file a = None) /\
    (ex = Return \/ ex = SysExit 0 \/ ex = SysExit 1).
Proof.
  intros Hrun Hex E.
  apply main_inv in E as (r & s1 & Hrun' & Hs1 & E).
  rewrite Hrun in Hrun'. inversion Hrun'; subst r o0. clear Hrun'.
  destruct E as [(e0 & _ & E & _)|[(_ & Hn & _)|(_ & fr & s2 & Hfp & E)]];
    [discriminate|congruence|].
  apply files_to_process_inv in Hfp as (Hs2 & Hfr).
  assert (Hfound : forall files,
            fr = inr (inr files) ->
            match file a with
            | Some f => files = [f] \/ files = []
            | None => exists o, files = rglob_mmd o (input_dir a)
            end).
  { intros files ->. destruct (file a) as [f|].
    - destruct Hfr as (_ & Hfr).
      destruct (path_exists (s_os s1) f) as [e0|[|]]; inversion Hfr; auto.
    - destruct Hfr as [(e0 & _ & _ & Hfr)|[(_ & _ & Hfr)|(_ & x & _ & Hfr)]].
      + discriminate.
      + inversion Hfr; eauto.
      + destruct x; inversion Hfr; eauto. }
  destruct fr as [e|[ex'|files]].
  - destruct E; discriminate.
  - destruct E as (E & ->). inversion E; subst ex'. clear E.
    destruct (file a) as [f|] eqn:Hf.
    + destruct Hfr as (_ & Hfr).
      destruct (path_exists (s_os s1) f) as [e0|[|]]; inversion Hfr; subst ex.
      exists [], []. rewrite Hs2, Hs1. rewrite <- ?app_assoc. simpl.
      split; [auto|]. split; [reflexivity|]. split; [reflexivity|].
      split; [split; [discriminate|intros [H _]; congruence]|].
      split; [split; [discriminate|intros [_ H]; discriminate]|auto].
    + destruct Hfr as [(e0 & _ & _ & Hfr)|[(_ & _ & Hfr)|(_ & x & _ & Hfr)]];
        [discriminate|discriminate|destruct x; discriminate].
  - specialize (Hfound files eq_refl).
    destruct E as [(-> & E & Ho & Hs)|(Hne & [(e & E)|(entries & Hs & Hm & E)])].
    + inversion E; subst ex. exists [], [].
      rewrite Hs, Hs2, Hs1. rewrite <- ?app_assoc. simpl.
      split; [exact Hfound|]. split; [reflexivity|]. split; [reflexivity|].
      split; [split; [discriminate|intros [H _]; congruence]|].
      split; [|auto]. split; [intros _|reflexivity]. split; [reflexivity|].
      destruct (file a) as [f|]; [|reflexivity].
      destruct Hfr as (_ & Hfr).
      destruct (path_exists (s_os s1) f) as [e0|[|]]; discriminate.
    + discriminate.
    + exists files, entries. rewrite Hs, Hs2, Hs1. rewrite <- ?app_assoc. simpl.
      split; [exact Hfound|]. split; [reflexivity|]. split; [exact Hm|].
      pose proof (count_ok_le entries) as Hle.
      pose proof (count_ok_all entries) as Hall.
      destruct (Nat.ltb (count_ok entries) (length entries)) eqn:Hlt;
        inversion E; subst ex.
      * apply Nat.ltb_lt in Hlt.
        split; [split; [discriminate|intros [_ H]; apply Hall in H; lia]|].
        split; [split; [discriminate|intros [H _]; congruence]|auto].
      * apply Nat.ltb_ge in Hlt.
        split; [split; [intros _; split; [exact Hne|apply Hall; lia]|reflexivity]|].
        split; [split; [discriminate|intros [H _]; congruence]|auto].
Qed.


Variable parse_args : list string -> (string * Z) + Args.


End Tool.

End DiagramProps.

(** ** The further properties on concrete inputs *)

Module MoreWitnesses.
Import Text Pathlib Sys Config Provider Examples MoreExamples Stages.

Local Abbreviation ascii_int := AsciiInt.int_of_str.
Local Abbreviation construct a o := (Settings__init__ ascii_int a o).

Lemma explicit_arguments_win_witness :
  env (returned (construct ex_explicit_args ex_bad_port)) = "production" /\
  api_port (returned (construct ex_explicit_args ex_bad_port)) = 9000.
Proof.
  destruct (ConfigProps.explicit_arguments_win ascii_int ex_explicit_args ex_bad_port
              (snd (construct ex_explicit_args ex_bad_port))
              (returned (construct ex_explicit_args ex_bad_port))
              ltac:(vm_compute; reflexivity))
    as (He & _ & _ & _ & _ & _ & _ & _ & _ & Hp & _).
  split; [apply He|apply Hp]; reflexivity.
Defined.

Lemma explicit_integers_skip_parsing_witness :
  construct ex_explicit_args ex_bad_port
  = Settings__init__ int_never ex_explicit_args ex_bad_port.
Proof.
  exact (ConfigProps.explicit_integers_skip_parsing ascii_int int_never
           ex_explicit_args ex_bad_port
           (ex_intro _ 9000 eq_refl) (ex_intro _ 2 eq_refl)).
Defined.

Lemma environment_defaults_witness :
  env (returned (construct Settings_no_args ex_os)) = "development" /\
  ascii_int "8000" = Some (api_port (returned (construct Settings_no_args ex_os))).
Proof.
  destruct (ConfigProps.environment_defaults ascii_int Settings_no_args ex_os
              (snd (construct Settings_no_args ex_os))
              (returned (construct Settings_no_args ex_os))
              ltac:(vm_compute; reflexivity))
    as (He & _ & _ & _ & Hp & _).
  split; [exact (He eq_refl)|exact (Hp eq_refl)].
Defined.

Lemma hf_home_is_rewritten_witness :
  environ (snd (construct Settings_no_args ex_hf_env)) !! "HF_HOME" = Some "/data/hf".
Proof.
  exact (proj2 (proj2 (ConfigProps.hf_home_is_rewritten ascii_int Settings_no_args
           ex_hf_env (snd (construct Settings_no_args ex_hf_env))
           (returned (construct Settings_no_args ex_hf_env)) "/data//hf/"
           eq_refl ltac:(vm_compute; reflexivity) ltac:(vm_compute; reflexivity)))).
Defined.

Lemma settings_directories_exist_witness :
  is_dir (snd (construct Settings_no_args ex_os)) (Path_of_str "./outputs") = true /\
  is_dir (snd (construct Settings_no_args ex_os)) (Path_of_str "./data") = true.
Proof.
  destruct (ConfigProps.settings_directories_exist ascii_int Settings_no_args ex_os
              (snd (construct Settings_no_args ex_os))
              (returned (construct Settings_no_args ex_os))
              eq_refl eq_refl ltac:(vm_compute; reflexivity))
    as (_ & _ & Ho & Hd & _).
  split; assumption.
Defined.

Lemma model_cache_dir_ignores_hf_home_witness :
  cache_dir (model (returned (construct Settings_no_args ex_hf_env))) = Some ex_cache /\
  hf_home (returned (construct Settings_no_args ex_hf_env))
  = PPath (Path_of_str "/data//hf/").
Proof.
  destruct (ConfigProps.model_cache_dir_ignores_hf_home ascii_int Settings_no_args
              ex_hf_env (snd (construct Settings_no_args ex_hf_env))
              (returned (construct Settings_no_args ex_hf_env))
              eq_refl ltac:(vm_compute; reflexivity))
    as (h & Hh & Hc & Hv).
  vm_compute in Hh. inversion Hh; subst h. split; [exact Hc|].
  apply Hv; [reflexivity|vm_compute; reflexivity].
Defined.

Lemma construction_frame_witness :
  environ (snd (construct Settings_no_args ex_bad_port)) !! "HF_TOKEN" = None /\
  environ (snd (construct Settings_no_args ex_bad_port)) !! "API_PORT"
  = Some "not-a-number".
Proof.
  destruct (ConfigProps.construction_frame ascii_int Settings_no_args ex_bad_port
              (snd (construct Settings_no_args ex_bad_port)) (inl ValueError)
              ltac:(vm_compute; reflexivity))
    as (_ & _ & Hk & Ht).
  split.
  - rewrite (Ht ValueError eq_refl). vm_compute. reflexivity.
  - rewrite (Hk "API_PORT") by discriminate. vm_compute. reflexivity.
Defined.

Lemma construction_is_repeatable_witness :
  exists o2,
    construct Settings_no_args (snd (construct Settings_no_args ex_os))
    = (inr (ex_settings false None), o2).
Proof.
  destruct (Repeat.construction_is_repeatable ascii_int ex_os
              (snd (construct Settings_no_args ex_os)) (ex_settings false None)
              ltac:(vm_compute; reflexivity))
    as (o2 & H & _).
  exists o2. exact H.
Defined.

Lemma after_failed_get_witness :
  get_settings ascii_int false (snd (get_settings ascii_int true ex_initialized_bad_port))
  = (inr (Some 0%nat), snd (get_settings ascii_int true ex_initialized_bad_port)).
Proof.
  exact (proj2 (ProviderProps.after_failed_get ascii_int true ex_initialized_bad_port
                  (snd (get_settings ascii_int true ex_initialized_bad_port)) ValueError
                  ltac:(vm_compute; reflexivity))).
Defined.

Lemma objects_never_change_witness :
  heap (snd (run ascii_int [Call true; Ambient ex_debug []; Call true] ex_initialized))
    !! 0%nat = Some (ex_settings false None).
Proof.
  refine (ProviderProps.objects_never_change ascii_int
            [Call true; Ambient ex_debug []; Call true] ex_initialized
            (snd (run ascii_int [Call true; Ambient ex_debug []; Call true] ex_initialized))
            (fst (run ascii_int [Call true; Ambient ex_debug []; Call true] ex_initialized))
            0%nat (ex_settings false None) _ _); vm_compute; reflexivity.
Defined.

Lemma get_settings_returns_object_witness :
  exists l v, Some 0%nat = Some l /\
    _settings (snd (get_settings ascii_int false (fresh_proc ex_os))) = Some l /\
    heap (snd (get_settings ascii_int false (fresh_proc ex_os))) !! l = Some v.
Proof.
  refine (ProviderProps.get_settings_returns_object ascii_int false (fresh_proc ex_os)
            (snd (get_settings ascii_int false (fresh_proc ex_os))) (Some 0%nat)
            Logic.I _).
  vm_compute. reflexivity.
Defined.

Lemma explicit_paths_are_normalised_witness :
  returned_training (TrainingConfig__init__ ex_training_args ex_os)
  = PPath (Path_of_str "runs/exp1") /\
  is_dir (snd (TrainingConfig__init__ ex_training_args ex_os)) (Path_of_str "runs/exp1")
  = true.
Proof.
  destruct (proj1 (ConfigProps.explicit_paths_are_normalised ex_os)
              ex_training_args (PStr "runs//exp1/")
              (mkTrainingConfig (2 # 100000)%Q 3 500 (1 # 100)%Q 100 1000 500
                 (PPath (Path_of_str "runs/exp1")))
              (snd (TrainingConfig__init__ ex_training_args ex_os))
              eq_refl ltac:(vm_compute; reflexivity)) as [_ Hd].
  split; [vm_compute; reflexivity|exact Hd].
Defined.

Lemma reload_rebuilds_equal_witness :
  exists s2 v,
    get_settings ascii_int true ex_initialized = (inr (Some 1%nat), s2) /\
    heap s2 !! 0%nat = Some v /\ heap s2 !! 1%nat = Some v.
Proof.
  refine (ProviderProps.reload_rebuilds_equal ascii_int false (fresh_proc ex_os)
            ex_initialized 0%nat (or_introl eq_refl) _).
  vm_compute. reflexivity.
Defined.

End MoreWitnesses.

Module DiagramWitnesses.
Import Text Pathlib Sys Diagrams Examples DiagramExamples.

Local Abbreviation b_mmd := (Path_of_str "docs/mermaid/sub/b.mmd").
Local Abbreviation diagrams := (Path_of_str "docs/diagrams").
Local Abbreviation run_main tool found a :=
  (main tool found store_exists DiagramExamples.upper a ex_script).
Local Abbreviation gen_b :=
  (generate_diagram tool_flaky DiagramExamples.upper b_mmd diagrams
     (Some "pdf") (Some "transparent") ex_script).

Lemma output_file_name_witness :
  output_file_of b_mmd diagrams "pdf" = mkPath 0 ["docs"; "diagrams"; "b.pdf"].
Proof.
  refine (DiagramProps.output_file_name b_mmd diagrams "b" "mmd" "pdf"
            eq_refl _ _ eq_refl eq_refl eq_refl); discriminate.
Defined.




Lemma main_no_files_witness :
  is_dir (s_os (snd (run_main tool_ok no_files ex_args))) (Path_of_str "docs/mermaid")
  = true.
Proof.
  refine (proj2 (proj2 (DiagramProps.main_no_files tool_ok no_files store_exists
            DiagramExamples.upper ex_args ex_script (snd (run_main tool_ok no_files ex_args))
            (Completed 0 "" "") ex_os (SysExit 0)
            eq_refl eq_refl eq_refl (fun _ => eq_refl) _)) _);
    vm_compute; reflexivity.
Defined.

Lemma main_runs_every_pair_witness :
  exists files entries,
    (exists o, files = two_files o (input_dir ex_args)) /\
    spawned (snd (run_main tool_flaky two_files ex_args))
    = ([] ++ (version_cmd, Completed 0 "" "") :: entries)%list /\
    List.map fst entries = all_commands ex_args files /\
    (SysExit 1 = Return <->
       files <> [] /\ Forall (fun e => exited_0 (snd e) = true) entries) /\
    (SysExit 1 = SysExit 0 <-> files = [] /\ file ex_args = None) /\
    (SysExit 1 = Return \/ SysExit 1 = SysExit 0 \/ SysExit 1 = SysExit 1).
Proof.
  refine (DiagramProps.main_runs_every_pair tool_flaky two_files store_exists
            DiagramExamples.upper ex_args ex_script (snd (run_main tool_flaky two_files ex_args))
            (Completed 0 "" "") ex_os (SysExit 1) eq_refl eq_refl _).
  vm_compute. reflexivity.
Defined.


End DiagramWitnesses.

(** ** When the output directory cannot be created *)

Module AbortFacts.
Import Text Pathlib Sys Diagrams.
Import SysFacts ConfigFacts StageFacts DiagramFacts.


Section Tool.

Variable subprocess_run : list string -> OS -> Spawn * OS.
Variable rglob_mmd : OS -> Path -> list Path.
Variable path_exists : OS -> Path -> Exn + bool.
Variable upper : string -> string.




End Tool.

End AbortFacts.

Module AbortProps.
Import Text Pathlib Sys Diagrams.
Import SysFacts ConfigFacts StageFacts DiagramFacts AbortFacts.

Section Tool.

Variable subprocess_run : list string -> OS -> Spawn * OS.
Variable rglob_mmd : OS -> Path -> list Path.
Variable path_exists : OS -> Path -> Exn + bool.
Variable upper : string -> string.


End Tool.

End AbortProps.

(** ** Exceptions through the singleton *)

Module PassThrough.
Import Text Pathlib Sys Config Provider ConfigFacts ProviderFacts.
Import Examples MoreExamples.

Section Parsing.

Variable int_of_str : string -> option Z.

(** X22. [get_settings] neither catches nor adds exceptions: it raises
    [e] exactly when it has to build (the global is unset, or a reload is
    asked for) and [Settings()] raises [e]; with the global set and no
    reload it cannot raise, whatever state the environment is in. *)
Theorem get_settings_raises_iff (r : bool) (s : Proc) (e : Exn) :
  (exists s', get_settings int_of_str r s = (inl e, s')) <->
  (_settings s = None \/ r = true) /\
  exists o', Settings__init__ int_of_str Settings_no_args (os s) = (inl e, o').
Proof.
  split.
  - intros (s' & H).
    destruct (_settings s) as [l|] eqn:Hs; [destruct r|].
    + pose proof (get_settings_builds int_of_str true s (or_intror eq_refl)) as B.
      destruct (Settings__init__ int_of_str Settings_no_args (os s)) as [[e0|v] o'];
        rewrite B in H; inversion H; subst. split; [auto|eauto].
    + rewrite (get_settings_stored int_of_str s l Hs) in H. discriminate.
    + pose proof (get_settings_builds int_of_str r s (or_introl Hs)) as B.
      destruct (Settings__init__ int_of_str Settings_no_args (os s)) as [[e0|v] o'];
        rewrite B in H; inversion H; subst. split; [auto|eauto].
  - intros (Hc & o' & H).
    pose proof (get_settings_builds int_of_str r s Hc) as B.
    rewrite H in B. eauto.
Qed.

End Parsing.

Lemma get_settings_raises_iff_witness :
  exists s', get_settings AsciiInt.int_of_str true ex_initialized_bad_port
             = (inl ValueError, s').
Proof.
  apply (proj2 (get_settings_raises_iff AsciiInt.int_of_str true
                  ex_initialized_bad_port ValueError)).
  split; [right; reflexivity|].
  eexists. vm_compute. reflexivity.
Defined.

End PassThrough.

Module AbortWitnesses.
Import Text Pathlib Sys Diagrams Examples DiagramExamples.


End AbortWitnesses.
